(** * ESA Dropshipping dashboard: the API client and the panels of
      [streamlit_app.py], embedded as functions over an explicit world
      (what is on screen, which HTTP requests were issued). *)

From Stdlib Require Import ZArith String Ascii List Bool Floats DecimalString Lia.
Import ListNotations.

Set Warnings "-register-all".

Open Scope Z_scope.
Open Scope string_scope.

(** ** Python values

    The values the script handles are what [json] decoding yields and what
    the widgets return: [None], booleans, integers, floats, strings, lists
    and dictionaries with string keys.  A dictionary keeps its insertion
    order, so it is an association list; lookups take the first binding of a
    key.  Strings are sequences of UTF-8 bytes: the only characters the
    script inspects are ASCII, and an ASCII byte is never part of a longer
    UTF-8 sequence. *)

Inductive pyobj : Type :=
| PyNone
| PyBool (b : bool)
| PyInt (z : Z)
| PyFloat (f : float)
| PyStr (s : string)
| PyList (items : list pyobj)
| PyDict (fields : list (string * pyobj)).

(** [bool(v)]: the truth value Python's [if v:], [v or w] and [v and w]
    test. *)
Definition truthy (v : pyobj) : bool :=
  match v with
  | PyNone => false
  | PyBool b => b
  | PyInt z => negb (z =? 0)%Z
  | PyFloat f => negb (PrimFloat.eqb f 0%float)
  | PyStr s => negb (s =? "")%string
  | PyList items => match items with [] => false | _ :: _ => true end
  | PyDict fields => match fields with [] => false | _ :: _ => true end
  end.

(** [a or b]. *)
Definition py_or (a b : pyobj) : pyobj := if truthy a then a else b.

(** [str(n)] for an [int]. *)
Definition str_int (z : Z) : string := NilZero.string_of_int (Z.to_int z).

(** [s.endswith(suffix)]. *)
Definition endswith (s suffix : string) : bool :=
  (String.length suffix <=? String.length s)%nat
  && (substring (String.length s - String.length suffix)
                (String.length suffix) s =? suffix)%string.

(** [s[:-1]]. *)
Definition slice_to_minus1 (s : string) : string :=
  substring 0 (String.length s - 1) s.

(** [needle in haystack], as a proposition. *)
Definition contains (haystack needle : string) : Prop :=
  exists before after, haystack = before ++ needle ++ after.

(** ** Dictionaries *)

Fixpoint assoc_get (k : string) (fields : list (string * pyobj)) : option pyobj :=
  match fields with
  | [] => None
  | (k', v) :: rest => if (k' =? k)%string then Some v else assoc_get k rest
  end.

(** [d[k] = v]: replaces the value of an existing key in place, appends a
    new key. *)
Fixpoint assoc_set (k : string) (v : pyobj) (fields : list (string * pyobj))
  : list (string * pyobj) :=
  match fields with
  | [] => [(k, v)]
  | (k', v') :: rest =>
      if (k' =? k)%string then (k, v) :: rest else (k', v') :: assoc_set k v rest
  end.

Definition assoc_keys (fields : list (string * pyobj)) : list string :=
  map fst fields.

(** ** Exceptions

    Every class below derives from [Exception], so [except Exception]
    catches each of them. *)

Inductive exn_class : Type :=
| Timeout | ConnectionError | HTTPError | JSONDecodeError
| KeyError | TypeError | AttributeError | ValueError | FileNotFoundError.

Record exn : Type := mkExn { exn_type : exn_class; exn_str : string }.

Inductive outcome (A : Type) : Type :=
| Returns (a : A)
| Raises (e : exn).
Arguments Returns {A} a.
Arguments Raises {A} e.

(** [d[k]] on an arbitrary value. *)
Definition py_getitem (v : pyobj) (k : string) : outcome pyobj :=
  match v with
  | PyDict fields =>
      match assoc_get k fields with
      | Some x => Returns x
      | None => Raises (mkExn KeyError ("'" ++ k ++ "'"))
      end
  | _ => Raises (mkExn TypeError "indices must be integers or the object is not subscriptable")
  end.

(** [v.get(k)]: only dictionaries have the method. *)
Definition py_get (v : pyobj) (k : string) : outcome pyobj :=
  match v with
  | PyDict fields =>
      match assoc_get k fields with
      | Some x => Returns x
      | None => Returns PyNone
      end
  | _ => Raises (mkExn AttributeError "object has no attribute 'get'")
  end.

(** ** The world: screen and network *)

Inductive http_method : Type := GET | POST.

Record request : Type := mkRequest {
  req_method : http_method;
  req_url : string;
  req_json : option pyobj;
  req_timeout : Z
}.

(** A response as the script reads it: [r.status_code], [r.reason],
    [r.text] and what [r.json()] does (return the decoded body or raise). *)
Record response : Type := mkResponse {
  status_code : Z;
  reason : string;
  text : string;
  json : outcome pyobj
}.

(** A [pandas.DataFrame] built from records: its columns and its rows. *)
Record frame : Type := mkFrame {
  columns : list string;
  rows : list (list (string * pyobj))
}.

Inductive ui_event : Type :=
| UiError (msg : string)
| UiSuccess (msg : string)
| UiInfo (msg : string)
| UiWarning (msg : string)
| UiMetric (label : string) (value : Z)
| UiDataframe (df : frame)
| UiCode (body : string)
| UiWrite (msg : string)
| UiMarkdown (msg : string)
| UiSubheader (msg : string).

Record world : Type := mkWorld {
  ui : list ui_event;
  sent : list request
}.

(** A computation of the script: it may change the world and either returns
    or raises; what it did before raising stays done. *)
Definition M (A : Type) : Type := world -> outcome A * world.

Definition ret {A} (a : A) : M A := fun w => (Returns a, w).

Definition raise {A} (e : exn) : M A := fun w => (Raises e, w).

Definition bind {A B} (c : M A) (k : A -> M B) : M B :=
  fun w =>
    match c w with
    | (Returns a, w') => k a w'
    | (Raises e, w') => (Raises e, w')
    end.

(** [try: body / except Exception as e: handler(e)]. *)
Definition try_except {A} (body : M A) (handler : exn -> M A) : M A :=
  fun w =>
    match body w with
    | (Returns a, w') => (Returns a, w')
    | (Raises e, w') => handler e w'
    end.

Definition lift {A} (o : outcome A) : M A := fun w => (o, w).

Declare Scope py_scope.
Delimit Scope py_scope with py.
Notation "x <- c ;; k" := (bind c (fun x => k))
  (at level 61, c at next level, right associativity) : py_scope.
Notation "c ;; k" := (bind c (fun _ => k))
  (at level 61, right associativity) : py_scope.
Open Scope py_scope.

Definition display (e : ui_event) : M unit :=
  fun w => (Returns tt, mkWorld (ui w ++ [e])%list (sent w)).

Definition st_error (msg : string) : M unit := display (UiError msg).
Definition st_success (msg : string) : M unit := display (UiSuccess msg).
Definition st_info (msg : string) : M unit := display (UiInfo msg).
Definition st_warning (msg : string) : M unit := display (UiWarning msg).

(** ** Configuration resolver (lines 11-17) *)

Definition DEFAULT_API : string := "https://esa-dropshipping.onrender.com".

(** [st.secrets.get(key, default)], the secrets holding the key or not. *)
Definition secrets_get (configured : option string) (default : string) : string :=
  match configured with
  | Some v => v
  | None => default
  end.

(** [st.sidebar.text_input(label, value)]: the text the user typed, or the
    initial value while the field is untouched. *)
Definition text_input (value : string) (typed : option string) : string :=
  match typed with
  | Some v => v
  | None => value
  end.

(** Lines 16-17. *)
Definition strip_trailing_slash (s : string) : string :=
  if endswith s "/" then slice_to_minus1 s else s.

(** The value [API_BASE] holds from line 17 on. *)
Definition API_BASE (configured typed : option string) : string :=
  strip_trailing_slash (text_input (secrets_get configured DEFAULT_API) typed).

(** ** HTTP client wrapper (lines 19-41) *)

Section Client.

(** The remote end: given the requests issued so far and a new request, the
    transport either fails ([requests] raises) or delivers a response. *)
Variable remote : list request -> request -> outcome response.

(** The resolved base URL. *)
Variable api_base : string.

Definition perform (req : request) : M response :=
  fun w => (remote (sent w) req, mkWorld (ui w) (sent w ++ [req])%list).

Definition requests_get (url : string) (timeout : Z) : M response :=
  perform (mkRequest GET url None timeout).

Definition requests_post (url : string) (body : pyobj) (timeout : Z) : M response :=
  perform (mkRequest POST url (Some body) timeout).

(** [Response.raise_for_status] of the [requests] library: an [HTTPError]
    for a 4xx or a 5xx status, nothing for any other status. *)
Definition raise_for_status (url : string) (r : response) : M unit :=
  if ((400 <=? status_code r) && (status_code r <? 500))%Z then
    raise (mkExn HTTPError
             (str_int (status_code r) ++ " Client Error: " ++ reason r
              ++ " for url: " ++ url))
  else if ((500 <=? status_code r) && (status_code r <? 600))%Z then
    raise (mkExn HTTPError
             (str_int (status_code r) ++ " Server Error: " ++ reason r
              ++ " for url: " ++ url))
  else ret tt.

Definition api_get (path : string) : M pyobj :=
  let url := api_base ++ path in
  try_except
    (r <- requests_get url 20 ;;
     raise_for_status url r ;;
     lift (json r))
    (fun e =>
       st_error ("GET " ++ url ++ " → " ++ exn_str e) ;;
       ret PyNone).

(** Every caller passes [payload]; the default [None] is [PyNone]. *)
Definition api_post (path : string) (payload : pyobj) : M pyobj :=
  let url := api_base ++ path in
  try_except
    (r <- requests_post url (py_or payload (PyDict [])) 30 ;;
     (if (400 <=? status_code r)%Z
      then st_error ("POST " ++ url ++ " → " ++ str_int (status_code r)
                     ++ ": " ++ text r)
      else ret tt) ;;
     raise_for_status url r ;;
     if negb (text r =? "")%string then lift (json r) else ret (PyDict []))
    (fun e =>
       st_error ("POST " ++ url ++ " → " ++ exn_str e) ;;
       ret PyNone).

(** The one request [api_get path] issues, and the one
    [api_post path payload] issues. *)
Definition get_request (path : string) : request :=
  mkRequest GET (api_base ++ path) None 20.

Definition post_request (path : string) (payload : pyobj) : request :=
  mkRequest POST (api_base ++ path) (Some (py_or payload (PyDict []))) 30.

(** ** Widgets *)

(** [st.number_input(label, min_value=m, value=v, step=1)] on integers: the
    number the user entered, which the widget keeps at or above [m], or [v]
    while untouched. *)
Definition number_input (min_value value : Z) (typed : option Z) : Z :=
  match typed with
  | Some v => Z.max min_value v
  | None => value
  end.

(** The same widget on floats. *)
Definition number_input_float (min_value value : float) (typed : option float) : float :=
  match typed with
  | Some v => if PrimFloat.ltb v min_value then min_value else v
  | None => value
  end.

(** [st.selectbox(label, options)]: the option the user picked, the first
    one while untouched. *)
Definition selectbox (options : list string) (picked : option nat) : string :=
  match picked with
  | Some i => nth i options (hd "" options)
  | None => hd "" options
  end.

(** ** The part of pandas the overview panel uses

    [pd.DataFrame(data)] is given for the data [GET /orders] delivers, a
    list of records: the columns are the keys in order of first appearance
    and a record lacking a column holds a missing value there.  The other
    constructors of pandas (a dictionary of columns, nested lists, scalars)
    are outside this model, which answers them with a [ValueError]. *)

Fixpoint as_records (items : list pyobj) : option (list (list (string * pyobj))) :=
  match items with
  | [] => Some []
  | PyDict fields :: rest =>
      match as_records rest with
      | Some rs => Some (fields :: rs)
      | None => None
      end
  | _ :: _ => None
  end.

Definition mem_string (k : string) (ks : list string) : bool :=
  existsb (fun k' => (k' =? k)%string) ks.

Definition add_keys (seen : list string) (fields : list (string * pyobj)) : list string :=
  fold_left (fun acc kv => if mem_string (fst kv) acc then acc else (acc ++ [fst kv])%list)
            fields seen.

Definition union_keys (records : list (list (string * pyobj))) : list string :=
  fold_left add_keys records [].

Definition DataFrame (data : pyobj) : outcome frame :=
  match data with
  | PyList items =>
      match as_records items with
      | Some records => Returns (mkFrame (union_keys records) records)
      | None => Raises (mkExn ValueError "DataFrame: not a list of records")
      end
  | _ => Raises (mkExn ValueError "DataFrame constructor not properly called!")
  end.

(** [df.empty]: some axis has length 0. *)
Definition df_empty (df : frame) : bool :=
  match columns df, rows df with
  | [], _ => true
  | _, [] => true
  | _, _ => false
  end.

(** [df[name]]: the cells of a column, [None] for a missing value. *)
Definition df_column (df : frame) (name : string) : outcome (list (option pyobj)) :=
  if mem_string name (columns df)
  then Returns (map (assoc_get name) (rows df))
  else Raises (mkExn KeyError ("'" ++ name ++ "'")).

(** What [dropna] removes: missing cells, [None] and NaN. *)
Definition is_na (cell : option pyobj) : bool :=
  match cell with
  | None => true
  | Some PyNone => true
  | Some (PyFloat f) => negb (PrimFloat.eqb f f)
  | Some _ => false
  end.

Definition hashable (v : pyobj) : bool :=
  match v with
  | PyList _ | PyDict _ => false
  | _ => true
  end.

Fixpoint present_values (cells : list (option pyobj)) : list pyobj :=
  match cells with
  | [] => []
  | c :: rest =>
      if is_na c then present_values rest
      else match c with
           | Some v => v :: present_values rest
           | None => present_values rest
           end
  end.

(** [series.value_counts()]: the values counted, missing ones dropped; the
    resulting series is kept as the multiset of those values.  Counting
    hashes the values, so a list or a dictionary among them is a
    [TypeError]. *)
Definition value_counts (cells : list (option pyobj)) : outcome (list pyobj) :=
  let vs := present_values cells in
  if forallb hashable vs then Returns vs
  else Raises (mkExn TypeError "unhashable type").

Definition is_str (k : string) (v : pyobj) : bool :=
  match v with
  | PyStr s => (s =? k)%string
  | _ => false
  end.

(** [int(counts.get(key, default))]: the count of the string [key], or the
    default when the key is not in the index. *)
Definition counts_get (counts : list pyobj) (key : string) (default : Z) : Z :=
  let n := List.length (filter (is_str key) counts) in
  match n with
  | O => default
  | S _ => Z.of_nat n
  end.

(** ** Panels *)

Definition dq : string := String (ascii_of_nat 34) "".
Definition nl : string := String (ascii_of_nat 10) "".

Definition LIST_ORDERS_SNIPPET : string :=
  "from fastapi import APIRouter, Depends" ++ nl
  ++ "from sqlalchemy.orm import Session" ++ nl
  ++ "from ..database import get_db" ++ nl
  ++ "from .. import models, schemas" ++ nl ++ nl
  ++ "@router.get(" ++ dq ++ "/" ++ dq ++ ", response_model=list[schemas.OrderOut])" ++ nl
  ++ "def list_orders(db: Session = Depends(get_db)):" ++ nl
  ++ "    return db.query(models.Order).all()".

Definition LIST_SHIPMENTS_SNIPPET : string :=
  "from fastapi import APIRouter, Depends" ++ nl
  ++ "from sqlalchemy.orm import Session" ++ nl
  ++ "from ..database import get_db" ++ nl
  ++ "from .. import models" ++ nl ++ nl
  ++ "@router.get(" ++ dq ++ "/" ++ dq ++ ")" ++ nl
  ++ "def list_shipments(db: Session = Depends(get_db)):" ++ nl
  ++ "    return db.query(models.Shipment).all()".

(** Lines 62-80: what the overview shows for the fetched [orders]. *)
Definition render_overview (orders : pyobj) : M unit :=
  match orders with
  | PyNone =>
      st_info "Aún no existe el endpoint **GET /orders** en tu API. Agrega la función list_orders y vuelve a recargar." ;;
      display (UiCode LIST_ORDERS_SNIPPET)
  | _ =>
      df_orders <- lift (DataFrame orders) ;;
      if negb (df_empty df_orders) then
        status <- lift (df_column df_orders "status") ;;
        counts <- lift (value_counts status) ;;
        display (UiMetric "Pending" (counts_get counts "pending" 0)) ;;
        display (UiMetric "Forwarding" (counts_get counts "forwarding" 0)) ;;
        display (UiMetric "At DF" (counts_get counts "at_df" 0)) ;;
        display (UiMetric "En MX" (counts_get counts "in_transit_mx" 0)) ;;
        display (UiMetric "Entregadas" (counts_get counts "delivered" 0)) ;;
        display (UiDataframe df_orders)
      else
        st_info "No hay órdenes aún. Crea una en la pestaña **Órdenes**."
  end.

(** Lines 58-80. *)
Definition tab_overview : M unit :=
  display (UiSubheader "Resumen") ;;
  orders <- api_get "/orders" ;;
  render_overview orders.

(** [format(v)] as an f-string field does it: Python's own rendering of a
    value, which the script leaves to the interpreter. *)
Variable py_format : pyobj -> string.

(** The state of the widgets of the product form: what the user typed in
    each, if anything, and whether the button was pressed. *)
Record product_form : Type := mkProductForm {
  pf_sku : option string;
  pf_name : option string;
  pf_description : option string;
  pf_price_usd : option float;
  pf_weight_kg : option float;
  pf_origin : option nat;
  pf_submitted : bool
}.

(** Lines 92-111.  The defaults 9.9 and 0.25 are the binary64 values
    Python reads them as. *)
Definition create_product (inp : product_form) : M unit :=
  let sku := text_input "WAL-0001" (pf_sku inp) in
  let name := text_input "Playera básica" (pf_name inp) in
  let description := text_input "Algodón 100%" (pf_description inp) in
  let price_usd := number_input_float 0%float 0x1.3cccccccccccdp+3%float (pf_price_usd inp) in
  let weight_kg := number_input_float 0%float 0.25%float (pf_weight_kg inp) in
  let origin := selectbox ["US"; "MX"] (pf_origin inp) in
  let submitted := pf_submitted inp in
  if submitted then
    let payload := PyDict [("sku", PyStr sku);
                           ("name", PyStr name);
                           ("description", PyStr description);
                           ("price_usd", PyFloat price_usd);
                           ("weight_kg", PyFloat weight_kg);
                           ("origin", PyStr origin)] in
    res <- api_post "/products/" payload ;;
    if truthy res then
      id <- lift (py_get res "id") ;;
      nm <- lift (py_get res "name") ;;
      st_success ("Producto creado: " ++ py_format id ++ " – " ++ py_format nm)
    else ret tt
  else ret tt.

(** [for p in products]: the elements a value yields when iterated.  A
    string yields its characters (here its bytes; either way each element
    is a string). *)
Definition py_iter (v : pyobj) : outcome (list pyobj) :=
  match v with
  | PyList items => Returns items
  | PyDict fields => Returns (map (fun kv => PyStr (fst kv)) fields)
  | PyStr s => Returns (map (fun c => PyStr (String c "")) (list_ascii_of_string s))
  | _ => Raises (mkExn TypeError "object is not iterable")
  end.

(** Line 117: the dictionary comprehension, one product after the other;
    the key is evaluated before the value. *)
Fixpoint build_product_map (products : list pyobj) (acc : list (string * pyobj))
  : M (list (string * pyobj)) :=
  match products with
  | [] => ret acc
  | p :: rest =>
      id <- lift (py_getitem p "id") ;;
      nm <- lift (py_getitem p "name") ;;
      sku <- lift (py_getitem p "sku") ;;
      let label := "[" ++ py_format id ++ "] " ++ py_format nm
                   ++ " (SKU " ++ py_format sku ++ ")" in
      v <- lift (py_getitem p "id") ;;
      build_product_map rest (assoc_set label v acc)
  end.

Record order_form : Type := mkOrderForm {
  of_customer_name : option string;
  of_customer_email : option string;
  of_ship_to_city : option string;
  of_ship_to_state : option string;
  of_ship_to_zip : option string;
  of_product : option nat;
  of_qty : option Z;
  of_submitted : bool
}.

Definition is_list (v : pyobj) : bool :=
  match v with
  | PyList _ => true
  | _ => false
  end.

(** Lines 119-150: the order form over the [product_map] of line 117. *)
Definition create_order (product_map : list (string * pyobj)) (inp : order_form) : M unit :=
  display (UiWrite "### ➕ Crear orden") ;;
  let customer_name := text_input "Juan Pérez" (of_customer_name inp) in
  let customer_email := text_input "juan@example.com" (of_customer_email inp) in
  let ship_to_city := text_input "Monterrey" (of_ship_to_city inp) in
  let ship_to_state := text_input "NL" (of_ship_to_state inp) in
  let ship_to_zip := text_input "64000" (of_ship_to_zip inp) in
  items <- (if truthy (PyDict product_map) then
              let prod_label := selectbox (assoc_keys product_map) (of_product inp) in
              let qty := number_input 1 1 (of_qty inp) in
              pid <- lift (py_getitem (PyDict product_map) prod_label) ;;
              ret [PyDict [("product_id", pid); ("qty", PyInt qty)]]
            else
              st_warning "No hay productos. Crea uno en la pestaña Productos." ;;
              ret []) ;;
  let submitted := of_submitted inp in
  if submitted then
    if negb (truthy (PyList items)) then
      st_error "Agrega al menos un producto."
    else
      let payload := PyDict [("customer_name", PyStr customer_name);
                             ("customer_email", PyStr customer_email);
                             ("ship_to_city", PyStr ship_to_city);
                             ("ship_to_state", PyStr ship_to_state);
                             ("ship_to_zip", PyStr ship_to_zip);
                             ("items", PyList items)] in
      res <- api_post "/orders/" payload ;;
      if truthy res then
        id <- lift (py_get res "id") ;;
        nm <- lift (py_get res "customer_name") ;;
        st_success ("Orden creada: #" ++ py_format id ++ " para " ++ py_format nm)
      else ret tt
  else ret tt.

(** Lines 152-158. *)
Definition orders_listing : M unit :=
  display (UiMarkdown "---") ;;
  display (UiWrite "### 📋 Listado de órdenes") ;;
  orders <- api_get "/orders" ;;
  if is_list orders && truthy orders then
    df <- lift (DataFrame orders) ;;
    display (UiDataframe df)
  else
    st_info "Sin órdenes o falta el endpoint GET /orders.".

(** Lines 114-158. *)
Definition tab_orders (inp : order_form) : M unit :=
  display (UiSubheader "Órdenes") ;;
  fetched <- api_get "/products" ;;
  let products := py_or fetched (PyList []) in
  ps <- lift (py_iter products) ;;
  product_map <- build_product_map ps [] ;;
  create_order product_map inp ;;
  orders_listing.

Record shipment_form : Type := mkShipmentForm {
  sf_order_id : option Z;
  sf_carrier : option string;
  sf_tracking : option string;
  sf_dest_city : option string;
  sf_dest_state : option string;
  sf_submitted : bool
}.

(** Lines 165-182. *)
Definition create_shipment (inp : shipment_form) : M unit :=
  let order_id := number_input 1 1 (sf_order_id inp) in
  let carrier := text_input "DeliverFever" (sf_carrier inp) in
  let tracking := text_input "DF-TEST-001" (sf_tracking inp) in
  let dest_city := text_input "Monterrey" (sf_dest_city inp) in
  let dest_state := text_input "NL" (sf_dest_state inp) in
  let submitted := sf_submitted inp in
  if submitted then
    let payload := PyDict [("order_id", PyInt order_id);
                           ("carrier", PyStr carrier);
                           ("tracking", PyStr tracking);
                           ("dest_city", PyStr dest_city);
                           ("dest_state", PyStr dest_state)] in
    res <- api_post "/shipping/create" payload ;;
    if truthy res then
      id <- lift (py_get res "id") ;;
      oid <- lift (py_get res "order_id") ;;
      st_success ("Envío creado: #" ++ py_format id ++ " (order " ++ py_format oid ++ ")")
    else ret tt
  else ret tt.

Record status_form : Type := mkStatusForm {
  uf_shipment_id : option Z;
  uf_new_status : option nat;
  uf_submitted2 : bool
}.

(** The confirmation of line 194. *)
Definition status_confirmation (shipment_id : Z) (new_status : string) : string :=
  "Shipment " ++ str_int shipment_id ++ " → " ++ new_status.

(** Lines 186-194. *)
Definition update_status (inp : status_form) : M unit :=
  let shipment_id := number_input 1 1 (uf_shipment_id inp) in
  let new_status := selectbox ["at_df"; "in_transit_mx"; "delivered"] (uf_new_status inp) in
  let submitted2 := uf_submitted2 inp in
  if submitted2 then
    let path := "/shipping/" ++ str_int shipment_id ++ "/status/" ++ new_status in
    res <- api_post path (PyDict []) ;;
    (* res and res.get("ok") *)
    cond <- (if truthy res then lift (py_get res "ok") else ret res) ;;
    if truthy cond then st_success (status_confirmation shipment_id new_status)
    else ret tt
  else ret tt.

(** Lines 161-209. *)
Definition tab_shipping (create : shipment_form) (update : status_form) : M unit :=
  display (UiSubheader "Envíos (Deliver Fever)") ;;
  display (UiWrite "### ➕ Crear envío") ;;
  create_shipment create ;;
  display (UiMarkdown "---") ;;
  display (UiWrite "### 🔁 Actualizar estatus de envío") ;;
  update_status update ;;
  display (UiMarkdown "---") ;;
  display (UiWrite "### 📦 Listado de envíos") ;;
  shipments <- api_get "/shipping" ;;
  if is_list shipments then
    if truthy shipments then
      df <- lift (DataFrame shipments) ;;
      display (UiDataframe df)
    else st_info "No hay envíos aún."
  else
    st_info "Aún no existe el endpoint **GET /shipping**. Puedes agregarlo así:" ;;
    display (UiCode LIST_SHIPMENTS_SNIPPET).

End Client.

(** ** Sample exchanges *)

Definition sample_base : string := "https://api.example.com".

Definition blank : world := mkWorld [] [].

(** A remote end that gives the same answer to every request. *)
Definition always (r : response) : list request -> request -> outcome response :=
  fun _ _ => Returns r.

(** A remote end that cannot be reached. *)
Definition unreachable : list request -> request -> outcome response :=
  fun _ _ => Raises (mkExn ConnectionError "Max retries exceeded").

(** [300 Multiple Choices] with a JSON body: a status outside 2xx that
    [raise_for_status] lets through. *)
Definition multiple_choices : response :=
  mkResponse 300 "Multiple Choices" "[]" (Returns (PyList [])).

Definition not_found : response :=
  mkResponse 404 "Not Found" "no such route"
             (Raises (mkExn JSONDecodeError "Expecting value: line 1 column 1 (char 0)")).

Definition no_content : response :=
  mkResponse 204 "No Content" ""
             (Raises (mkExn JSONDecodeError "Expecting value: line 1 column 1 (char 0)")).

Definition html_page : response :=
  mkResponse 200 "OK" "<html></html>"
             (Raises (mkExn JSONDecodeError "Expecting value: line 1 column 1 (char 0)")).

(** The number of orders whose status field is the string [s]. *)
Definition has_status (s : string) (order : list (string * pyobj)) : bool :=
  match assoc_get "status" order with
  | Some (PyStr x) => (x =? s)%string
  | _ => false
  end.

Definition orders_with_status (s : string) (orders : list (list (string * pyobj))) : Z :=
  Z.of_nat (List.length (filter (has_status s) orders)).

Definition ok_json (body : string) (v : pyobj) : response :=
  mkResponse 200 "OK" body (Returns v).

(** [[{status: pending}, {status: pending}, {status: delivered}]]. *)
Definition three_orders : list (list (string * pyobj)) :=
  [[("status", PyStr "pending")];
   [("status", PyStr "pending")];
   [("status", PyStr "delivered")]].

Definition three_orders_response : response :=
  ok_json ("[{" ++ dq ++ "status" ++ dq ++ ": " ++ dq ++ "pending" ++ dq ++ "}, {"
           ++ dq ++ "status" ++ dq ++ ": " ++ dq ++ "pending" ++ dq ++ "}, {"
           ++ dq ++ "status" ++ dq ++ ": " ++ dq ++ "delivered" ++ dq ++ "}]")
          (PyList (map PyDict three_orders)).

(** [[{id: 1}]]: an order list in which no order carries a status. *)
Definition order_without_status_response : response :=
  ok_json ("[{" ++ dq ++ "id" ++ dq ++ ": 1}]") (PyList [PyDict [("id", PyInt 1)]]).

(** ** The requests of the forms *)

(** The payload of lines 101-108. *)
Definition product_payload (inp : product_form) : pyobj :=
  PyDict [("sku", PyStr (text_input "WAL-0001" (pf_sku inp)));
          ("name", PyStr (text_input "Playera básica" (pf_name inp)));
          ("description", PyStr (text_input "Algodón 100%" (pf_description inp)));
          ("price_usd",
           PyFloat (number_input_float 0%float 0x1.3cccccccccccdp+3%float (pf_price_usd inp)));
          ("weight_kg",
           PyFloat (number_input_float 0%float 0.25%float (pf_weight_kg inp)));
          ("origin", PyStr (selectbox ["US"; "MX"] (pf_origin inp)))].

(** The product identifier behind the label selected in the order form. *)
Definition selected_product_id (product_map : list (string * pyobj)) (inp : order_form)
  : option pyobj :=
  assoc_get (selectbox (assoc_keys product_map) (of_product inp)) product_map.

(** The items of line 130 and the payload of lines 140-147. *)
Definition order_items (pid : pyobj) (inp : order_form) : list pyobj :=
  [PyDict [("product_id", pid); ("qty", PyInt (number_input 1 1 (of_qty inp)))]].

Definition order_payload (inp : order_form) (items : list pyobj) : pyobj :=
  PyDict [("customer_name", PyStr (text_input "Juan Pérez" (of_customer_name inp)));
          ("customer_email", PyStr (text_input "juan@example.com" (of_customer_email inp)));
          ("ship_to_city", PyStr (text_input "Monterrey" (of_ship_to_city inp)));
          ("ship_to_state", PyStr (text_input "NL" (of_ship_to_state inp)));
          ("ship_to_zip", PyStr (text_input "64000" (of_ship_to_zip inp)));
          ("items", PyList items)].

(** The payload of lines 173-179. *)
Definition shipment_payload (inp : shipment_form) : pyobj :=
  PyDict [("order_id", PyInt (number_input 1 1 (sf_order_id inp)));
          ("carrier", PyStr (text_input "DeliverFever" (sf_carrier inp)));
          ("tracking", PyStr (text_input "DF-TEST-001" (sf_tracking inp)));
          ("dest_city", PyStr (text_input "Monterrey" (sf_dest_city inp)));
          ("dest_state", PyStr (text_input "NL" (sf_dest_state inp)))].

(** The path of line 191 and the confirmation of line 194. *)
Definition status_path (inp : status_form) : string :=
  "/shipping/" ++ str_int (number_input 1 1 (uf_shipment_id inp)) ++ "/status/"
  ++ selectbox ["at_df"; "in_transit_mx"; "delivered"] (uf_new_status inp).

Definition status_message (inp : status_form) : string :=
  status_confirmation (number_input 1 1 (uf_shipment_id inp))
                      (selectbox ["at_df"; "in_transit_mx"; "delivered"] (uf_new_status inp)).

(** The world once the order form has written its title. *)
Definition order_form_opened (w : world) : world :=
  mkWorld (ui w ++ [UiWrite "### ➕ Crear orden"])%list (sent w).

(** ** What a computation does to the world *)

Definition is_post (r : request) : bool :=
  match req_method r with
  | POST => true
  | GET => false
  end.

(** The POST requests issued so far. *)
Definition posts (w : world) : list request := filter is_post (sent w).

(** A computation that only adds to the screen: it issues no request. *)
Definition quiet {A} (c : M A) : Prop :=
  forall w, sent (snd (c w)) = sent w
            /\ exists shown, ui (snd (c w)) = (ui w ++ shown)%list.

(** A computation that issues no POST request and only adds to the
    screen. *)
Definition no_post {A} (c : M A) : Prop :=
  forall w, posts (snd (c w)) = posts w
            /\ exists shown, ui (snd (c w)) = (ui w ++ shown)%list.

Definition is_success (e : ui_event) : bool :=
  match e with
  | UiSuccess _ => true
  | _ => false
  end.

(** The success confirmations on screen. *)
Definition successes (w : world) : list ui_event := filter is_success (ui w).

(** What [api_post] returns when the request failed ([None]) or succeeded
    with an empty body (the empty dictionary). *)
Definition none_or_empty (res : pyobj) : Prop := res = PyNone \/ res = PyDict [].

(** A JSON string literal. *)
Definition quoted (s : string) : string := dq ++ s ++ dq.

(** One product of the catalogue, and the catalogue holding only it. *)
Definition tshirt : pyobj :=
  PyDict [("id", PyInt 7); ("sku", PyStr "WAL-0001"); ("name", PyStr "Playera")].

Definition one_product_response : response :=
  ok_json ("[{" ++ quoted "id" ++ ": 7, " ++ quoted "sku" ++ ": " ++ quoted "WAL-0001"
           ++ ", " ++ quoted "name" ++ ": " ++ quoted "Playera" ++ "}]")
          (PyList [tshirt]).

Definition empty_list_response : response := ok_json "[]" (PyList []).

Definition order_created_response : response :=
  ok_json ("{" ++ quoted "id" ++ ": 1, " ++ quoted "customer_name" ++ ": "
           ++ quoted "Juan Pérez" ++ "}")
          (PyDict [("id", PyInt 1); ("customer_name", PyStr "Juan Pérez")]).

(** [{ok: true}], [{ok: false}], and an answer whose ok field is the
    string "false". *)
Definition ok_true_response : response :=
  ok_json ("{" ++ quoted "ok" ++ ": true}") (PyDict [("ok", PyBool true)]).

Definition ok_false_response : response :=
  ok_json ("{" ++ quoted "ok" ++ ": false}") (PyDict [("ok", PyBool false)]).

Definition ok_string_response : response :=
  ok_json ("{" ++ quoted "ok" ++ ": " ++ quoted "false" ++ "}")
          (PyDict [("ok", PyStr "false")]).

(** A rendering of values good enough for identifiers and names. *)
Definition simple_format (v : pyobj) : string :=
  match v with
  | PyInt z => str_int z
  | PyStr s => s
  | PyNone => "None"
  | PyBool true => "True"
  | PyBool false => "False"
  | _ => "?"
  end.

Definition submitted_order : order_form :=
  mkOrderForm None None None None None None None true.

Definition submitted_status : status_form := mkStatusForm None None true.

(** A remote end serving the one-product catalogue and creating orders. *)
Definition shop : list request -> request -> outcome response :=
  fun _ req =>
    match req_method req with
    | GET => Returns one_product_response
    | POST => Returns order_created_response
    end.

(** ** Products panel, health indicator and the page
       (lines 8-15, 43-55, 83-111, 211) *)

(** A byte [10xxxxxx]: inside a UTF-8 sequence, not at its start. *)
Definition is_continuation_byte (c : ascii) : bool :=
  match c with
  | Ascii _ _ _ _ _ _ b6 b7 => b7 && negb b6
  end.

(** The number of code points of a UTF-8 string: what [len] counts. *)
Fixpoint code_points (s : string) : nat :=
  match s with
  | EmptyString => O
  | String c rest =>
      if is_continuation_byte c then code_points rest else S (code_points rest)
  end.

(** [len(v)]. *)
Definition py_len (v : pyobj) : outcome Z :=
  match v with
  | PyList items => Returns (Z.of_nat (List.length items))
  | PyDict fields => Returns (Z.of_nat (List.length fields))
  | PyStr s => Returns (Z.of_nat (code_points s))
  | _ => Raises (mkExn TypeError "object has no len()")
  end.

(** [v.get(key) == expected] for a string [expected], as the second operand
    of [v and ...]: evaluated only when [v] is true. *)
Definition and_get_equals (v : pyobj) (key expected : string) : outcome bool :=
  if truthy v then
    match py_get v key with
    | Returns x => Returns (is_str expected x)
    | Raises e => Raises e
    end
  else Returns false.

(** What the page shows: elements of the sidebar, of the body outside the
    tabs, and of each tab, the page title and captions, the sidebar title
    and input field, and the tab bar. *)
Inductive page_event : Type :=
| InSidebar (e : ui_event)
| InBody (e : ui_event)
| InTab (tab : string) (e : ui_event)
| SidebarTitle (msg : string)
| SidebarInput (label value : string)
| PageTitle (msg : string)
| PageCaption (msg : string)
| PageTabs (labels : list string).

Record page : Type := mkPage {
  shown : list page_event;
  requests : list request
}.

(** A step of the script at page level. *)
Definition P (A : Type) : Type := page -> outcome A * page.

Definition pret {A} (a : A) : P A := fun pg => (Returns a, pg).

Definition pbind {A B} (c : P A) (k : A -> P B) : P B :=
  fun pg =>
    match c pg with
    | (Returns a, pg') => k a pg'
    | (Raises e, pg') => (Raises e, pg')
    end.

Definition show (e : page_event) : P unit :=
  fun pg => (Returns tt, mkPage (shown pg ++ [e])%list (requests pg)).

(** Running a computation inside a container ([with tab:], or the body):
    what it displays lands in that container, the requests it issues are the
    page's. *)
Definition within {A} (container : ui_event -> page_event) (c : M A) : P A :=
  fun pg =>
    match c (mkWorld [] (requests pg)) with
    | (o, w') => (o, mkPage (shown pg ++ map container (ui w'))%list (sent w'))
    end.

Declare Scope page_scope.
Delimit Scope page_scope with page.
Notation "c >> k" := (pbind c (fun _ => k))
  (at level 62, right associativity) : page_scope.

Record page_inputs : Type := mkPageInputs {
  in_product : product_form;
  in_order : order_form;
  in_shipment : shipment_form;
  in_status : status_form
}.

Definition TAB_OVERVIEW : string := "📊 Overview".
Definition TAB_PRODUCTS : string := "🛒 Productos".
Definition TAB_ORDERS : string := "🧾 Órdenes".
Definition TAB_SHIPPING : string := "🚚 Envíos".

Section Page.

Variable remote : list request -> request -> outcome response.
Variable py_format : pyobj -> string.

(** Lines 84-88. *)
Definition products_listing (api_base : string) : M unit :=
  display (UiSubheader "Productos") ;;
  fetched <- api_get remote api_base "/products" ;;
  let products := py_or fetched (PyList []) in
  n <- lift (py_len products) ;;
  display (UiWrite ("Productos cargados: " ++ str_int n)) ;;
  if truthy products then
    df <- lift (DataFrame products) ;;
    display (UiDataframe df)
  else ret tt.

(** Lines 83-111. *)
Definition tab_products (api_base : string) (inp : product_form) : M unit :=
  products_listing api_base ;;
  display (UiMarkdown "---") ;;
  display (UiWrite "### ➕ Crear producto") ;;
  create_product remote api_base py_format inp.

(** Lines 43-48. *)
Definition health_indicator (api_base : string) : P unit :=
  (show (InSidebar (UiMarkdown "**Estado del API:**")) >>
   pbind (within InBody (api_get remote api_base "/health")) (fun health =>
   pbind (fun pg => (and_get_equals health "status" "ok", pg)) (fun connected =>
   if connected : bool
   then show (InSidebar (UiSuccess "Conectado ✅"))
   else show (InSidebar (UiError "Sin conexión ❌")))))%page.

(** The whole script, top to bottom.  [configured] is the secret, if set;
    [typed] what the user entered in the sidebar field, if anything.
    Line 8 sets the browser title and the layout and puts nothing on the
    page; every [with tab:] block runs on each render. *)
Definition script (configured typed : option string) (inp : page_inputs) : P unit :=
  let api_base := API_BASE configured typed in
  (show (SidebarTitle "🔗 Conexión") >>
   show (SidebarInput "API Base URL"
           (text_input (secrets_get configured DEFAULT_API) typed)) >>
   health_indicator api_base >>
   show (PageTitle "📦 ESA Dropshipping – Dashboard") >>
   show (PageCaption "Control de productos, pedidos y logística (Deliver Fever)") >>
   show (PageTabs [TAB_OVERVIEW; TAB_PRODUCTS; TAB_ORDERS; TAB_SHIPPING]) >>
   within (InTab TAB_OVERVIEW) (tab_overview remote api_base) >>
   within (InTab TAB_PRODUCTS) (tab_products api_base (in_product inp)) >>
   within (InTab TAB_ORDERS) (tab_orders remote api_base py_format (in_order inp)) >>
   within (InTab TAB_SHIPPING)
          (tab_shipping remote api_base py_format (in_shipment inp) (in_status inp)) >>
   show (PageCaption "Hecho con ❤️ por ESA (FastAPI + Streamlit)"))%page.

End Page.

(** ** More about what a computation does to the world *)

Definition is_error (e : ui_event) : bool :=
  match e with
  | UiError _ => true
  | _ => false
  end.

(** A remote end that never delivers: every request fails in transport or
    is answered with a 4xx or 5xx status. *)
Definition failing (remote : list request -> request -> outcome response) : Prop :=
  forall history req,
    (exists e, remote history req = Raises e)
    \/ (exists r, remote history req = Returns r /\ 400 <= status_code r < 600).

(** A computation that returns, with a value satisfying [good], having
    added to the screen nothing that is a success confirmation, and having
    only added to the requests. *)
Definition yields {A} (good : A -> Prop) (c : M A) : Prop :=
  forall w, exists a added issued,
    c w = (Returns a, mkWorld (ui w ++ added)%list (sent w ++ issued)%list)
    /\ good a
    /\ filter is_success added = [].

Definition any {A} (a : A) : Prop := True.

(** Forms on which no button was pressed. *)
Definition untouched_product : product_form :=
  mkProductForm None None None None None None false.

Definition untouched_order : order_form :=
  mkOrderForm None None None None None None None false.

Definition untouched_shipment : shipment_form :=
  mkShipmentForm None None None None None false.

Definition untouched_status : status_form := mkStatusForm None None false.

Definition nothing_pressed (inp : page_inputs) : Prop :=
  pf_submitted (in_product inp) = false
  /\ of_submitted (in_order inp) = false
  /\ sf_submitted (in_shipment inp) = false
  /\ uf_submitted2 (in_status inp) = false.

Definition is_tab_success (e : page_event) : bool :=
  match e with
  | InTab _ (UiSuccess _) => true
  | InBody (UiSuccess _) => true
  | InSidebar (UiSuccess _) => true
  | _ => false
  end.

(** A product from which the label of line 117 can be built: a record with
    an id, a name and a sku. *)
Definition labelled (p : pyobj) : bool :=
  match p with
  | PyDict fields =>
      match assoc_get "id" fields, assoc_get "name" fields, assoc_get "sku" fields with
      | Some _, Some _, Some _ => true
      | _, _, _ => false
      end
  | _ => false
  end.

(** What [record.get(key)] gives: the field, or [None] when it is absent. *)
Definition field_or_none (fields : list (string * pyobj)) (key : string) : pyobj :=
  match assoc_get key fields with
  | Some v => v
  | None => PyNone
  end.

(** The three statuses the update form offers (line 188). *)
Definition SHIPMENT_STATUSES : list string := ["at_df"; "in_transit_mx"; "delivered"].

(** The world when the listing of the orders panel fetches (line 154), and
    when the listing of the shipping panel does (line 198) with neither
    form submitted. *)
Definition orders_listing_reached (w : world) : world :=
  mkWorld (ui w ++ [UiMarkdown "---"; UiWrite "### 📋 Listado de órdenes"])%list (sent w).

Definition shipping_listing_reached (w : world) : world :=
  mkWorld (ui w ++ [UiSubheader "Envíos (Deliver Fever)";
                    UiWrite "### ➕ Crear envío";
                    UiMarkdown "---";
                    UiWrite "### 🔁 Actualizar estatus de envío";
                    UiMarkdown "---";
                    UiWrite "### 📦 Listado de envíos"])%list
          (sent w).

(** The page once the health check has fetched: the sidebar caption, then
    in the body whatever [api_get] displayed. *)
Definition health_checked (pg : page) (w1 : world) : page :=
  mkPage (shown pg ++ InSidebar (UiMarkdown "**Estado del API:**")
                   :: map InBody (ui w1))%list
         (sent w1).

Definition add_event (pg : page) (e : page_event) : page :=
  mkPage (shown pg ++ [e])%list (requests pg).

(** A computation that, when it returns, has issued exactly the requests
    [issued]; the same for a step of the page. *)
Definition sends {A} (issued : list request) (c : M A) : Prop :=
  forall w a w', c w = (Returns a, w') -> sent w' = (sent w ++ issued)%list.

Definition page_sends {A} (issued : list request) (c : P A) : Prop :=
  forall pg a pg', c pg = (Returns a, pg') -> requests pg' = (requests pg ++ issued)%list.

(** The paths the script fetches on a render, in order. *)
Definition FETCHED_PATHS : list string :=
  ["/health"; "/orders"; "/products"; "/products"; "/orders"; "/shipping"].

Definition untouched_inputs : page_inputs :=
  mkPageInputs untouched_product untouched_order untouched_shipment untouched_status.

Definition empty_page : page := mkPage [] [].

(** ** More sample exchanges *)

(** A status outside the registered ranges, with an empty body. *)
Definition denied : response :=
  mkResponse 999 "Request denied" ""
             (Raises (mkExn JSONDecodeError "Expecting value: line 1 column 1 (char 0)")).

(** [[{id: 7}]]: a catalogue whose product has neither name nor sku. *)
Definition nameless_product_response : response :=
  ok_json ("[{" ++ quoted "id" ++ ": 7}]") (PyList [PyDict [("id", PyInt 7)]]).

(** [[1]]: an answer that is a list where a record is expected. *)
Definition list_response : response := ok_json "[1]" (PyList [PyInt 1]).

(** [{status: ok}]. *)
Definition healthy_response : response :=
  ok_json ("{" ++ quoted "status" ++ ": " ++ quoted "ok" ++ "}")
          (PyDict [("status", PyStr "ok")]).

Definition tshirt_map : list (string * pyobj) :=
  [("[7] Playera (SKU WAL-0001)", PyInt 7)].

Definition submitted_shipment : shipment_form :=
  mkShipmentForm None None None None None true.

(** An order form on which an option beyond the list was picked. *)
Definition stray_pick : order_form :=
  mkOrderForm None None None None None (Some 5%nat) None true.

(** ** What Streamlit shows for a message

    An event [UiError msg] records the call [st.error(msg)], and likewise
    for the other alerts.  What Streamlit puts on screen for it is
    [clean_text(msg)], that is [textwrap.dedent(str(msg)).strip()].  Strings
    are UTF-8, so a white-space code point is one, two or three bytes. *)

(** One-byte white space: U+0009 to U+000D, U+001C to U+0020. *)
Definition ws1 (b : ascii) : bool :=
  let n := nat_of_ascii b in
  ((9 <=? n) && (n <=? 13) || (28 <=? n) && (n <=? 32))%nat.

(** Two-byte white space: U+0085 and U+00A0. *)
Definition ws2 (b1 b2 : ascii) : bool :=
  let n1 := nat_of_ascii b1 in
  let n2 := nat_of_ascii b2 in
  ((n1 =? 194) && ((n2 =? 133) || (n2 =? 160)))%nat.

(** Three-byte white space: U+1680, U+2000 to U+200A, U+2028, U+2029,
    U+202F, U+205F and U+3000. *)
Definition ws3 (b1 b2 b3 : ascii) : bool :=
  let n1 := nat_of_ascii b1 in
  let n2 := nat_of_ascii b2 in
  let n3 := nat_of_ascii b3 in
  ((n1 =? 225) && (n2 =? 154) && (n3 =? 128)
   || (n1 =? 226) && (n2 =? 128)
      && ((128 <=? n3) && (n3 <=? 138) || (n3 =? 168) || (n3 =? 169) || (n3 =? 175))
   || (n1 =? 226) && (n2 =? 129) && (n3 =? 159)
   || (n1 =? 227) && (n2 =? 128) && (n3 =? 128))%nat.

(** [s.lstrip()]. *)
Fixpoint lstrip (s : string) : string :=
  match s with
  | EmptyString => EmptyString
  | String b1 r1 =>
      if ws1 b1 then lstrip r1
      else match r1 with
           | String b2 r2 =>
               if ws2 b1 b2 then lstrip r2
               else match r2 with
                    | String b3 r3 => if ws3 b1 b2 b3 then lstrip r3 else s
                    | EmptyString => s
                    end
           | EmptyString => s
           end
  end.

(** [lstrip] on the reversed string: the bytes of a code point come last
    byte first. *)
Fixpoint lstrip_reversed (s : string) : string :=
  match s with
  | EmptyString => EmptyString
  | String b1 r1 =>
      if ws1 b1 then lstrip_reversed r1
      else match r1 with
           | String b2 r2 =>
               if ws2 b2 b1 then lstrip_reversed r2
               else match r2 with
                    | String b3 r3 => if ws3 b3 b2 b1 then lstrip_reversed r3 else s
                    | EmptyString => s
                    end
           | EmptyString => s
           end
  end.

Fixpoint rev_string (s : string) : string :=
  match s with
  | EmptyString => EmptyString
  | String c rest => rev_string rest ++ String c EmptyString
  end.

(** [s.rstrip()] and [s.strip()]. *)
Definition rstrip (s : string) : string :=
  rev_string (lstrip_reversed (rev_string s)).

Definition strip (s : string) : string := rstrip (lstrip s).

Definition is_newline (c : ascii) : bool := (c =? "010")%char.

(** A space or a tab: the characters [textwrap] counts as indentation. *)
Definition is_blank_char (c : ascii) : bool := ((c =? " ") || (c =? "009"))%char.

Fixpoint leading_blanks (l : string) : string :=
  match l with
  | String c rest => if is_blank_char c then String c (leading_blanks rest) else EmptyString
  | EmptyString => EmptyString
  end.

Fixpoint drop_leading_blanks (l : string) : string :=
  match l with
  | String c rest => if is_blank_char c then drop_leading_blanks rest else l
  | EmptyString => EmptyString
  end.

(** A line [dedent] takes for blank.  Up to Python 3.13 such a line is
    made of spaces and tabs only; from Python 3.14 on it is any line
    [isspace] accepts.  The flag tells which ([true]: 3.14 and later); the
    empty line counts as blank in both. *)
Definition blank_line (unicode_blanks : bool) (l : string) : bool :=
  if unicode_blanks then (lstrip l =? "")%string
  else (drop_leading_blanks l =? "")%string.

(** The lines of a text, cut at each newline; [cur] is the line begun. *)
Fixpoint split_lines (cur s : string) : list string :=
  match s with
  | EmptyString => [cur]
  | String c rest =>
      if is_newline c then cur :: split_lines EmptyString rest
      else split_lines (cur ++ String c EmptyString) rest
  end.

(** The text with [f] applied to each of its lines. *)
Fixpoint map_lines (f : string -> string) (cur s : string) : string :=
  match s with
  | EmptyString => f cur
  | String c rest =>
      if is_newline c then f cur ++ String c (map_lines f EmptyString rest)
      else map_lines f (cur ++ String c EmptyString) rest
  end.

Fixpoint common_prefix (a b : string) : string :=
  match a, b with
  | String x a', String y b' =>
      if (x =? y)%char then String x (common_prefix a' b') else EmptyString
  | _, _ => EmptyString
  end.

(** The indentation common to the lines that are not blank. *)
Definition margin (unicode_blanks : bool) (lines : list string) : string :=
  match map leading_blanks (filter (fun l => negb (blank_line unicode_blanks l)) lines) with
  | [] => EmptyString
  | indent :: indents => fold_left common_prefix indents indent
  end.

Definition blank_to_empty (unicode_blanks : bool) (l : string) : string :=
  if blank_line unicode_blanks l then EmptyString else l.

Definition remove_margin (m l : string) : string :=
  if prefix m l then substring (String.length m) (String.length l - String.length m) l
  else l.

(** [textwrap.dedent(text)]: blank lines are emptied, then the common
    margin, if any, is removed from every line. *)
Definition dedent (unicode_blanks : bool) (text : string) : string :=
  let text1 := map_lines (blank_to_empty unicode_blanks) EmptyString text in
  let m := margin unicode_blanks (split_lines EmptyString text1) in
  if (m =? "")%string then text1 else map_lines (remove_margin m) EmptyString text1.

(** Streamlit's [clean_text]. *)
Definition clean_text (unicode_blanks : bool) (text : string) : string :=
  strip (dedent unicode_blanks text).

(** [needle in haystack], decided. *)
Fixpoint find_in (needle haystack : string) : bool :=
  if prefix needle haystack then true
  else match haystack with
       | EmptyString => false
       | String _ rest => find_in needle rest
       end.

(** An ASCII character that is no white space. *)
Definition solid (c : ascii) : bool :=
  negb (ws1 c) && (nat_of_ascii c <? 128)%nat.

Fixpoint all_solid (s : string) : bool :=
  match s with
  | EmptyString => true
  | String c rest => solid c && all_solid rest
  end.

(** A 404 whose body ends in a newline. *)
Definition not_found_newline : response :=
  mkResponse 404 "Not Found" ("no such route" ++ nl)
             (Raises (mkExn JSONDecodeError "Expecting value: line 1 column 1 (char 0)")).

(** ** The decoder and the secrets *)

Definition is_json_space (c : ascii) : bool :=
  ((c =? " ") || (c =? "009") || (c =? "010") || (c =? "013"))%char.

Definition is_digit (c : ascii) : bool :=
  ((48 <=? nat_of_ascii c) && (nat_of_ascii c <=? 57))%nat.

(** What every JSON text of RFC 8259 satisfies: after white space it starts
    an object, an array, a string, a number, or one of [true], [false] and
    [null]. *)
Fixpoint json_value_can_start (body : string) : bool :=
  match body with
  | EmptyString => false
  | String c rest =>
      if is_json_space c then json_value_can_start rest
      else ((c =? "{") || (c =? "[") || (nat_of_ascii c =? 34)%nat || (c =? "-")
            || is_digit c || (c =? "t") || (c =? "f") || (c =? "n"))%char
  end.

(** A 200 whose body is the literal NaN: no JSON text, yet Python's decoder
    reads it as the float nan. *)
Definition nan_response : response :=
  mkResponse 200 "OK" "NaN" (Returns (PyFloat nan)).

(** The secrets Streamlit finds: no secrets file at all (reading any
    secret then raises [StreamlitSecretNotFoundError], a
    [FileNotFoundError], with the given message), or a file that holds the
    key API_BASE_URL or does not. *)
Inductive secrets_store : Type :=
| NoSecretsFile (message : string)
| SecretsFile (api_base_url : option string).

(** The script from its first line: line 12 reads the secret, which ends
    the script when there is no secrets file; otherwise the script goes
    on with what [secrets_get] gives. *)
Definition dashboard (remote : list request -> request -> outcome response)
           (py_format : pyobj -> string) (store : secrets_store)
           (typed : option string) (inp : page_inputs) : P unit :=
  match store with
  | NoSecretsFile message => fun pg => (Raises (mkExn FileNotFoundError message), pg)
  | SecretsFile configured => script remote py_format configured typed inp
  end.

(** An order whose status is one of the five the overview counts. *)
Definition has_listed_status (order : list (string * pyobj)) : bool :=
  has_status "pending" order || has_status "forwarding" order
  || has_status "at_df" order || has_status "in_transit_mx" order
  || has_status "delivered" order.

(** Four orders: two pending, one with a status the overview does not
    list, one without status. *)
Definition four_orders : list (list (string * pyobj)) :=
  [[("status", PyStr "pending")];
   [("status", PyStr "pending")];
   [("status", PyStr "cancelled")];
   [("id", PyInt 4)]].

Definition four_orders_response : response :=
  ok_json ("[{" ++ quoted "status" ++ ": " ++ quoted "pending" ++ "}, {"
           ++ quoted "status" ++ ": " ++ quoted "pending" ++ "}, {"
           ++ quoted "status" ++ ": " ++ quoted "cancelled" ++ "}, {"
           ++ quoted "id" ++ ": 4}]")
          (PyList (map PyDict four_orders)).

(** * Properties *)

(** ** Strings *)

Lemma length_app (s t : string) :
  String.length (s ++ t) = (String.length s + String.length t)%nat.
Proof.
  induction s as [|c s IH]; simpl; [reflexivity | now rewrite IH].
Qed.

Lemma app_assoc_string (s t u : string) : (s ++ t) ++ u = s ++ (t ++ u).
Proof.
  induction s as [|c s IH]; simpl; [reflexivity | now rewrite IH].
Qed.

Lemma substring_prefix (s t : string) :
  substring 0 (String.length s) (s ++ t) = s.
Proof.
  induction s as [|c s IH]; simpl.
  - destruct t; reflexivity.
  - now rewrite IH.
Qed.

Lemma substring_all (t : string) : substring 0 (String.length t) t = t.
Proof.
  induction t as [|c t IH]; simpl; [reflexivity | now rewrite IH].
Qed.

Lemma substring_suffix (s t : string) :
  substring (String.length s) (String.length t) (s ++ t) = t.
Proof.
  induction s as [|c s IH]; simpl; [apply substring_all | exact IH].
Qed.

(** A string splits at any position within it. *)
Lemma substring_split (s : string) (n : nat) :
  (n <= String.length s)%nat ->
  s = substring 0 n s ++ substring n (String.length s - n) s.
Proof.
  revert n; induction s as [|c s IH]; intros n Hn; simpl in *.
  - destruct n; [reflexivity | lia].
  - destruct n as [|n]; simpl.
    + now rewrite substring_all.
    + f_equal. apply IH. lia.
Qed.

Lemma endswith_app (s suffix : string) : endswith (s ++ suffix) suffix = true.
Proof.
  unfold endswith. rewrite length_app.
  replace (String.length s + String.length suffix - String.length suffix)%nat
    with (String.length s) by lia.
  rewrite substring_suffix, String.eqb_refl, andb_true_r.
  apply Nat.leb_le. lia.
Qed.

Lemma endswith_inv (s suffix : string) :
  endswith s suffix = true -> exists p, s = p ++ suffix.
Proof.
  unfold endswith. intros H. apply andb_true_iff in H as [Hlen Heq].
  apply Nat.leb_le in Hlen. apply String.eqb_eq in Heq.
  exists (substring 0 (String.length s - String.length suffix) s).
  pose proof (substring_split s (String.length s - String.length suffix)) as H.
  replace (String.length s - (String.length s - String.length suffix))%nat
    with (String.length suffix) in H by lia.
  rewrite Heq in H. apply H. lia.
Qed.

Lemma endswith_iff (s suffix : string) :
  endswith s suffix = true <-> exists p, s = p ++ suffix.
Proof.
  split; [apply endswith_inv | intros [p ->]; apply endswith_app].
Qed.

Lemma slice_app_char (s : string) (c : ascii) :
  slice_to_minus1 (s ++ String c "") = s.
Proof.
  unfold slice_to_minus1. rewrite length_app. simpl.
  replace (String.length s + 1 - 1)%nat with (String.length s) by lia.
  apply substring_prefix.
Qed.

Lemma strip_app_slash (s : string) : strip_trailing_slash (s ++ "/") = s.
Proof.
  unfold strip_trailing_slash. rewrite endswith_app. apply slice_app_char.
Qed.

Lemma strip_no_slash (u : string) :
  (forall s, u <> s ++ "/") -> strip_trailing_slash u = u.
Proof.
  intros H. unfold strip_trailing_slash.
  destruct (endswith u "/") eqn:E; [|reflexivity].
  apply endswith_inv in E as [p ->]. now destruct (H p).
Qed.

Lemma contains_refl (s : string) : contains s s.
Proof.
  exists "", "". simpl. induction s as [|c s IH]; simpl; [reflexivity | now rewrite <- IH].
Qed.

Lemma contains_prefix (needle after : string) : contains (needle ++ after) needle.
Proof. now exists "", after. Qed.

Lemma contains_app_l (a s needle : string) :
  contains s needle -> contains (a ++ s) needle.
Proof.
  intros [before [after ->]]. exists (a ++ before), after.
  now rewrite app_assoc_string.
Qed.

(** ** Configuration resolver *)

(** C7: when the base URL in the sidebar field ends in a slash, the
    resolved URL is that string without its last slash, every other
    character in place; when it does not end in a slash, the resolved URL
    is the string itself. *)
Theorem api_base_strips_one_trailing_slash :
  forall (configured typed : option string) (u : string),
    text_input (secrets_get configured DEFAULT_API) typed = u ->
    (forall s, u = s ++ "/" -> API_BASE configured typed = s)
    /\ ((forall s, u <> s ++ "/") -> API_BASE configured typed = u).
Proof.
  intros configured typed u Hu. unfold API_BASE. rewrite Hu. split.
  - intros s ->. apply strip_app_slash.
  - apply strip_no_slash.
Qed.

Lemma api_base_strips_one_trailing_slash_witness :
  API_BASE None (Some "http://localhost:8000/") = "http://localhost:8000"
  /\ API_BASE (Some "https://api.example.com") None = "https://api.example.com".
Proof.
  split.
  - exact (proj1 (api_base_strips_one_trailing_slash
                    None (Some "http://localhost:8000/") "http://localhost:8000/"
                    eq_refl)
                 "http://localhost:8000" eq_refl).
  - apply (proj2 (api_base_strips_one_trailing_slash
                    (Some "https://api.example.com") None "https://api.example.com"
                    eq_refl)).
    intros s H.
    assert (E : endswith "https://api.example.com" "/" = true)
      by (rewrite H; apply endswith_app).
    vm_compute in E. discriminate E.
Defined.

(** C8, as stated, fails: a base URL ending in two slashes resolves to a
    URL that still ends in a slash. *)
Lemma api_base_may_keep_a_trailing_slash :
  API_BASE None (Some "https://api.example.com//") = "https://api.example.com/"
  /\ endswith (API_BASE None (Some "https://api.example.com//")) "/" = true.
Proof. split; reflexivity. Qed.

(** C8, amended: the resolved base URL ends in a slash exactly when the
    base URL in the sidebar field ends in two slashes; so a URL with at most
    one trailing slash resolves to a URL with none. *)
Theorem api_base_trailing_slash_iff :
  forall (configured typed : option string),
    (exists s, API_BASE configured typed = s ++ "/")
    <-> (exists s, text_input (secrets_get configured DEFAULT_API) typed = s ++ "//").
Proof.
  intros configured typed. unfold API_BASE.
  set (u := text_input (secrets_get configured DEFAULT_API) typed).
  destruct (endswith u "/") eqn:E.
  - apply endswith_inv in E as [p Hp]. rewrite Hp, strip_app_slash. split.
    + intros [s ->]. exists s. now rewrite app_assoc_string.
    + intros [s Hs]. exists s.
      change "//" with ("/" ++ "/") in Hs. rewrite <- app_assoc_string in Hs.
      rewrite <- (strip_app_slash p), Hs. apply strip_app_slash.
  - unfold strip_trailing_slash. rewrite E. split.
    + intros H. apply endswith_iff in H. congruence.
    + intros [s Hs]. exfalso.
      change "//" with ("/" ++ "/") in Hs. rewrite <- app_assoc_string in Hs.
      rewrite Hs, endswith_app in E. discriminate.
Qed.

(** ** HTTP client wrapper *)

Section ClientProperties.

Variable remote : list request -> request -> outcome response.
Variable base : string.

Lemma raise_for_status_error (url : string) (r : response) (w : world) :
  400 <= status_code r < 600 ->
  exists msg, raise_for_status url r w = (Raises (mkExn HTTPError msg), w).
Proof.
  intros H. unfold raise_for_status, raise.
  destruct (Z.leb_spec 400 (status_code r)); [|lia].
  destruct (Z.ltb_spec (status_code r) 500); simpl; [eauto|].
  destruct (Z.leb_spec 500 (status_code r)); [|lia].
  destruct (Z.ltb_spec (status_code r) 600); simpl; [eauto|lia].
Qed.

Lemma raise_for_status_pass (url : string) (r : response) (w : world) :
  status_code r < 400 \/ 600 <= status_code r ->
  raise_for_status url r w = (Returns tt, w).
Proof.
  intros H. unfold raise_for_status, ret.
  destruct (Z.leb_spec 400 (status_code r));
    destruct (Z.ltb_spec (status_code r) 500);
    destruct (Z.leb_spec 500 (status_code r));
    destruct (Z.ltb_spec (status_code r) 600); simpl; try reflexivity; lia.
Qed.

Lemma raise_for_status_cases (url : string) (r : response) (w : world) :
  raise_for_status url r w = (Returns tt, w)
  \/ exists m, raise_for_status url r w = (Raises (mkExn HTTPError m), w).
Proof.
  unfold raise_for_status, raise, ret.
  destruct ((400 <=? status_code r) && (status_code r <? 500))%Z; [right; eauto|].
  destruct ((500 <=? status_code r) && (status_code r <? 600))%Z; [right; eauto|].
  now left.
Qed.

Ltac run_client :=
  unfold api_get, api_post, try_except, bind, requests_get, requests_post,
    perform, lift, st_error, display, ret, get_request, post_request in *.

Lemma api_get_transport_error (path : string) (w : world) (e : exn) :
  remote (sent w) (get_request base path) = Raises e ->
  api_get remote base path w
  = (Returns PyNone,
     mkWorld (ui w ++ [UiError ("GET " ++ (base ++ path) ++ " → " ++ exn_str e)])%list
             (sent w ++ [get_request base path])%list).
Proof. run_client. intros ->. reflexivity. Qed.

Lemma api_get_error_status (path : string) (w : world) (r : response) :
  remote (sent w) (get_request base path) = Returns r ->
  400 <= status_code r < 600 ->
  exists m,
    api_get remote base path w
    = (Returns PyNone,
       mkWorld (ui w ++ [UiError ("GET " ++ (base ++ path) ++ " → " ++ m)])%list
               (sent w ++ [get_request base path])%list).
Proof.
  run_client. intros -> Hs.
  match goal with
  | |- context [raise_for_status ?u r ?w0] =>
      destruct (raise_for_status_error u r w0 Hs) as [m Hm]; rewrite Hm
  end.
  exists m. reflexivity.
Qed.

Lemma api_get_decode_error (path : string) (w : world) (r : response) (e : exn) :
  remote (sent w) (get_request base path) = Returns r ->
  status_code r < 400 \/ 600 <= status_code r ->
  json r = Raises e ->
  api_get remote base path w
  = (Returns PyNone,
     mkWorld (ui w ++ [UiError ("GET " ++ (base ++ path) ++ " → " ++ exn_str e)])%list
             (sent w ++ [get_request base path])%list).
Proof.
  run_client. intros -> Hs Hj.
  rewrite raise_for_status_pass by exact Hs. rewrite Hj. reflexivity.
Qed.

Lemma api_post_transport_error (path : string) (payload : pyobj) (w : world) (e : exn) :
  remote (sent w) (post_request base path payload) = Raises e ->
  api_post remote base path payload w
  = (Returns PyNone,
     mkWorld (ui w ++ [UiError ("POST " ++ (base ++ path) ++ " → " ++ exn_str e)])%list
             (sent w ++ [post_request base path payload])%list).
Proof. run_client. intros ->. reflexivity. Qed.

Lemma api_post_decode_error (path : string) (payload : pyobj) (w : world)
      (r : response) (e : exn) :
  remote (sent w) (post_request base path payload) = Returns r ->
  status_code r < 400 ->
  text r <> "" ->
  json r = Raises e ->
  api_post remote base path payload w
  = (Returns PyNone,
     mkWorld (ui w ++ [UiError ("POST " ++ (base ++ path) ++ " → " ++ exn_str e)])%list
             (sent w ++ [post_request base path payload])%list).
Proof.
  run_client. intros -> Hs Ht Hj.
  destruct (Z.leb_spec 400 (status_code r)); [lia|].
  rewrite raise_for_status_pass by lia.
  apply String.eqb_neq in Ht. rewrite Ht, Hj. reflexivity.
Qed.

(** [api_get] always returns (whatever its body raises, the handler turns
    into [None]), issues exactly one request, a GET, and only adds to the
    screen. *)
Lemma api_get_run (path : string) (w : world) :
  exists v shown,
    api_get remote base path w
    = (Returns v, mkWorld (ui w ++ shown)%list (sent w ++ [get_request base path])%list).
Proof.
  run_client.
  destruct (remote (sent w) _) as [r|e].
  - match goal with
    | |- context [raise_for_status ?u r ?w0] =>
        destruct (raise_for_status_cases u r w0) as [H | [m H]]; rewrite H
    end; cbv beta iota.
    + destruct (json r) as [v|e]; cbn [ui sent].
      * exists v, []. now rewrite app_nil_r.
      * eexists _, [_]. reflexivity.
    + cbn [ui sent]. eexists _, [_]. reflexivity.
  - cbn [ui sent]. eexists _, [_]. reflexivity.
Qed.

(** [api_post] always returns, issues exactly one request, a POST, and
    only adds error messages to the screen. *)
Lemma api_post_run (path : string) (payload : pyobj) (w : world) :
  exists v shown,
    api_post remote base path payload w
    = (Returns v,
       mkWorld (ui w ++ shown)%list (sent w ++ [post_request base path payload])%list)
    /\ filter is_success shown = [].
Proof.
  run_client.
  destruct (remote (sent w) _) as [r|e].
  - destruct (400 <=? status_code r)%Z; cbv beta iota; cbn [ui sent];
      match goal with
      | |- context [raise_for_status ?u r ?w0] =>
          destruct (raise_for_status_cases u r w0) as [H | [m H]]; rewrite H
      end; cbv beta iota; cbn [ui sent];
      try (destruct (negb (text r =? "")%string); [destruct (json r) as [v|e]|]);
      cbv beta iota; cbn [ui sent]; rewrite <- ?app_assoc;
      first [ eexists _, []; rewrite app_nil_r; split; reflexivity
            | eexists _, _; split; reflexivity ].
  - cbn [ui sent]. eexists _, [_]. split; reflexivity.
Qed.

(** A 2xx answer with an empty body: the empty dictionary, nothing shown. *)
Lemma api_post_empty_body (path : string) (payload : pyobj) (w : world) (r : response) :
  remote (sent w) (post_request base path payload) = Returns r ->
  200 <= status_code r < 300 ->
  text r = "" ->
  api_post remote base path payload w
  = (Returns (PyDict []),
     mkWorld (ui w) (sent w ++ [post_request base path payload])%list).
Proof.
  run_client. intros -> Hs Ht.
  destruct (Z.leb_spec 400 (status_code r)); [lia|].
  rewrite raise_for_status_pass by lia.
  rewrite Ht. reflexivity.
Qed.



(** C3: when the POST is answered with a 2xx status and an empty body,
    [api_post] returns the empty dictionary, which is not [None], and
    displays nothing. *)
Theorem api_post_empty_body_returns_empty_record :
  forall (path : string) (payload : pyobj) (w : world) (r : response),
    remote (sent w) (post_request base path payload) = Returns r ->
    200 <= status_code r < 300 ->
    text r = "" ->
    api_post remote base path payload w
    = (Returns (PyDict []),
       mkWorld (ui w) (sent w ++ [post_request base path payload])%list)
    /\ PyDict [] <> PyNone.
Proof.
  intros path payload w r Hr Hs Ht.
  split; [now apply (api_post_empty_body path payload w r) | discriminate].
Qed.

End ClientProperties.


Lemma api_post_empty_body_returns_empty_record_witness :
  api_post (always no_content) sample_base "/shipping/1/status/at_df" (PyDict []) blank
  = (Returns (PyDict []),
     mkWorld [] [mkRequest POST "https://api.example.com/shipping/1/status/at_df"
                           (Some (PyDict [])) 30])
  /\ PyDict [] <> PyNone.
Proof.
  apply (api_post_empty_body_returns_empty_record (always no_content) sample_base
           "/shipping/1/status/at_df" (PyDict []) blank no_content eq_refl).
  - simpl. lia.
  - reflexivity.
Defined.

(** ** Overview panel *)

Lemma mem_string_app (k : string) (xs ys : list string) :
  mem_string k (xs ++ ys) = mem_string k xs || mem_string k ys.
Proof. apply existsb_app. Qed.

Lemma add_keys_keeps (k : string) (fields : list (string * pyobj)) :
  forall seen, mem_string k seen = true -> mem_string k (add_keys seen fields) = true.
Proof.
  unfold add_keys. induction fields as [|[k' v] fields IH]; intros seen H; simpl.
  - exact H.
  - apply IH. destruct (mem_string k' seen); [exact H|].
    rewrite mem_string_app, H. reflexivity.
Qed.

Lemma add_keys_adds (k : string) (fields : list (string * pyobj)) :
  forall seen, assoc_get k fields <> None -> mem_string k (add_keys seen fields) = true.
Proof.
  induction fields as [|[k' v] fields IH]; intros seen H; simpl in *.
  - congruence.
  - destruct (String.eqb_spec k' k) as [->|Hne].
    + apply (add_keys_keeps k fields). destruct (mem_string k seen) eqn:E; [exact E|].
      rewrite mem_string_app. simpl. rewrite String.eqb_refl. apply orb_true_r.
    + apply (IH _ H).
Qed.

Lemma union_keys_from (k : string) (records : list (list (string * pyobj))) :
  forall seen,
    mem_string k seen = true
    \/ (exists r, In r records /\ assoc_get k r <> None) ->
    mem_string k (fold_left add_keys records seen) = true.
Proof.
  induction records as [|r records IH]; intros seen H; simpl.
  - destruct H as [H | [r [[] _]]]. exact H.
  - apply IH. destruct H as [H | [r' [[<- | Hin] Hk]]].
    + left. now apply add_keys_keeps.
    + left. now apply add_keys_adds.
    + right. eauto.
Qed.

Lemma counts_get_zero (counts : list pyobj) (key : string) :
  counts_get counts key 0 = Z.of_nat (List.length (filter (is_str key) counts)).
Proof.
  unfold counts_get. now destruct (List.length (filter (is_str key) counts)).
Qed.

Lemma status_counts (s : string) (records : list (list (string * pyobj))) :
  counts_get (present_values (map (assoc_get "status") records)) s 0
  = orders_with_status s records.
Proof.
  rewrite counts_get_zero. unfold orders_with_status. f_equal.
  induction records as [|r records IH]; simpl; [reflexivity|].
  unfold has_status at 1.
  destruct (assoc_get "status" r) as [[| | | f | x | |]|]; simpl; try exact IH.
  - destruct (negb (PrimFloat.eqb f f)); simpl; exact IH.
  - destruct (x =? s)%string; simpl; now rewrite IH.
Qed.

Lemma present_values_hashable (records : list (list (string * pyobj))) :
  (forall r v, In r records -> assoc_get "status" r = Some v -> hashable v = true) ->
  forallb hashable (present_values (map (assoc_get "status") records)) = true.
Proof.
  induction records as [|r records IH]; intros H; simpl; [reflexivity|].
  assert (IH' := IH (fun r' v Hin => H r' v (or_intror Hin))).
  destruct (assoc_get "status" r) as [v|] eqn:E; simpl; [|exact IH'].
  pose proof (H r v (or_introl eq_refl) E) as Hv.
  destruct v; simpl in *; try (now rewrite IH'); try discriminate.
  destruct (negb (PrimFloat.eqb f f)); simpl; now rewrite ?IH'.
Qed.

(** C4, as stated, fails: for a non-empty order list in which no order has
    a status field, reading the status column raises [KeyError]; no metric
    is displayed. *)
Lemma overview_without_status_column_raises :
  tab_overview (always order_without_status_response) sample_base blank
  = (Raises (mkExn KeyError "'status'"),
     mkWorld [UiSubheader "Resumen"]
             [mkRequest GET "https://api.example.com/orders" None 20]).
Proof. reflexivity. Qed.

(** C4, amended: when the fetched order list is a list of records, at
    least one of them has a status field, and no status is a list or a
    record, the overview displays the five metrics Pending, Forwarding,
    At DF, En MX and Entregadas, each the number of orders whose status is
    "pending", "forwarding", "at_df", "in_transit_mx" and "delivered"
    (zero when no order has that status), then the table. *)
Theorem overview_metrics_count_statuses :
  forall (remote : list request -> request -> outcome response) (base : string)
         (w w1 : world) (items : list pyobj) (orders : list (list (string * pyobj))),
    api_get remote base "/orders" (mkWorld (ui w ++ [UiSubheader "Resumen"])%list (sent w))
    = (Returns (PyList items), w1) ->
    as_records items = Some orders ->
    (exists o, In o orders /\ assoc_get "status" o <> None) ->
    (forall o v, In o orders -> assoc_get "status" o = Some v -> hashable v = true) ->
    tab_overview remote base w
    = (Returns tt,
       mkWorld (ui w1 ++ [UiMetric "Pending" (orders_with_status "pending" orders);
                          UiMetric "Forwarding" (orders_with_status "forwarding" orders);
                          UiMetric "At DF" (orders_with_status "at_df" orders);
                          UiMetric "En MX" (orders_with_status "in_transit_mx" orders);
                          UiMetric "Entregadas" (orders_with_status "delivered" orders);
                          UiDataframe (mkFrame (union_keys orders) orders)])%list
               (sent w1)).
Proof.
  intros remote base w w1 items orders Hget Hrec Hsome Hhash.
  unfold tab_overview, bind at 1. unfold display at 1. cbv beta iota.
  unfold bind at 1. rewrite Hget. cbv beta iota.
  assert (Hcol : mem_string "status" (union_keys orders) = true)
    by (apply union_keys_from; right; exact Hsome).
  unfold render_overview, DataFrame. rewrite Hrec.
  unfold bind at 1. unfold lift at 1. cbv beta iota.
  assert (Hne : df_empty (mkFrame (union_keys orders) orders) = false).
  { unfold df_empty. simpl. destruct (union_keys orders); [discriminate Hcol|].
    destruct orders; [|reflexivity]. now destruct Hsome as [o [[] _]]. }
  rewrite Hne. cbn [negb].
  unfold df_column. cbn [columns rows]. rewrite Hcol.
  unfold bind at 1. unfold lift at 1. cbv beta iota.
  unfold value_counts. rewrite (present_values_hashable orders Hhash).
  unfold bind at 1. unfold lift at 1. cbv beta iota.
  rewrite !status_counts.
  unfold bind, display. cbn [ui sent].
  rewrite <- !app_assoc. reflexivity.
Qed.

Lemma overview_metrics_count_statuses_witness :
  tab_overview (always three_orders_response) sample_base blank
  = (Returns tt,
     mkWorld [UiSubheader "Resumen";
              UiMetric "Pending" 2;
              UiMetric "Forwarding" 0;
              UiMetric "At DF" 0;
              UiMetric "En MX" 0;
              UiMetric "Entregadas" 1;
              UiDataframe (mkFrame ["status"] three_orders)]
             [mkRequest GET "https://api.example.com/orders" None 20]).
Proof.
  apply (overview_metrics_count_statuses
           (always three_orders_response) sample_base blank
           (mkWorld [UiSubheader "Resumen"]
                    [mkRequest GET "https://api.example.com/orders" None 20])
           (map PyDict three_orders) three_orders).
  - reflexivity.
  - reflexivity.
  - exists [("status", PyStr "pending")]. split; [left; reflexivity | discriminate].
  - intros o v Hin Hv. simpl in Hin.
    destruct Hin as [<- | [<- | [<- | []]]]; simpl in Hv;
      injection Hv as <-; reflexivity.
Defined.

(** ** Forms *)

Lemma quiet_ret {A} (a : A) : quiet (ret a).
Proof. intros w. split; [reflexivity | exists []; simpl; now rewrite app_nil_r]. Qed.

Lemma quiet_lift {A} (o : outcome A) : quiet (lift o).
Proof. intros w. split; [reflexivity | exists []; simpl; now rewrite app_nil_r]. Qed.

Lemma quiet_display (e : ui_event) : quiet (display e).
Proof. intros w. split; [reflexivity | now exists [e]]. Qed.

Lemma quiet_bind {A B} (c : M A) (k : A -> M B) :
  quiet c -> (forall a, quiet (k a)) -> quiet (bind c k).
Proof.
  intros Hc Hk w. unfold bind. destruct (Hc w) as [Hs [shown Hu]].
  destruct (c w) as [[a|e] w']; simpl in *.
  - destruct (Hk a w') as [Hs' [shown' Hu']]. split; [congruence|].
    exists (shown ++ shown')%list. now rewrite Hu', Hu, app_assoc.
  - split; [exact Hs | eauto].
Qed.

Lemma quiet_no_post {A} (c : M A) : quiet c -> no_post c.
Proof.
  intros Hc w. destruct (Hc w) as [Hs Hu]. split; [|exact Hu].
  unfold posts. now rewrite Hs.
Qed.

Lemma no_post_bind {A B} (c : M A) (k : A -> M B) :
  no_post c -> (forall a, no_post (k a)) -> no_post (bind c k).
Proof.
  intros Hc Hk w. unfold bind. destruct (Hc w) as [Hs [shown Hu]].
  destruct (c w) as [[a|e] w']; simpl in *.
  - destruct (Hk a w') as [Hs' [shown' Hu']]. split; [congruence|].
    exists (shown ++ shown')%list. now rewrite Hu', Hu, app_assoc.
  - split; [exact Hs | eauto].
Qed.

Create HintDb world discriminated.
#[local] Hint Resolve quiet_ret quiet_lift quiet_display : world.

Lemma no_post_api_get (remote : list request -> request -> outcome response)
      (base path : string) :
  no_post (api_get remote base path).
Proof.
  intros w. destruct (api_get_run remote base path w) as [v [shown ->]]. simpl.
  split; [|eauto]. unfold posts. simpl. rewrite filter_app. simpl. apply app_nil_r.
Qed.

Lemma orders_listing_no_post (remote : list request -> request -> outcome response)
      (base : string) :
  no_post (orders_listing remote base).
Proof.
  unfold orders_listing.
  apply no_post_bind; [apply quiet_no_post; auto with world | intros _].
  apply no_post_bind; [apply quiet_no_post; auto with world | intros _].
  apply no_post_bind; [apply no_post_api_get | intros orders].
  apply quiet_no_post.
  destruct (is_list orders && truthy orders).
  - apply quiet_bind; auto with world.
  - apply quiet_display.
Qed.

(** After a successful or failed creation, the caller only adds to the
    screen. *)
Lemma confirmation_quiet (res : pyobj) (k1 k2 : string) (msg : pyobj -> pyobj -> string) :
  quiet (if truthy res
         then id <- lift (py_get res k1) ;; nm <- lift (py_get res k2) ;;
              st_success (msg id nm)
         else ret tt).
Proof.
  destruct (truthy res); [|auto with world].
  apply quiet_bind; [auto with world | intros id].
  apply quiet_bind; [auto with world | intros nm]. apply quiet_display.
Qed.

Lemma selectbox_single (label : string) (picked : option nat) :
  selectbox [label] picked = label.
Proof.
  destruct picked as [[|[|i]]|]; reflexivity.
Qed.

(** Running a sequence step by step. *)
Lemma bind_returns {A B} (c : M A) (k : A -> M B) (w w' : world) (a : A) :
  c w = (Returns a, w') -> bind c k w = k a w'.
Proof. unfold bind. now intros ->. Qed.

Lemma bind_display {B} (e : ui_event) (k : unit -> M B) (w : world) :
  bind (display e) k w = k tt (mkWorld (ui w ++ [e])%list (sent w)).
Proof. reflexivity. Qed.

Lemma bind_lift {A B} (a : A) (k : A -> M B) :
  bind (lift (Returns a)) k = k a.
Proof. reflexivity. Qed.

Lemma bind_ret {A B} (a : A) (k : A -> M B) :
  bind (ret a) k = k a.
Proof. reflexivity. Qed.

Section FormProperties.

Variable remote : list request -> request -> outcome response.
Variable base : string.
Variable py_format : pyobj -> string.

(** The order form over an empty catalogue: a warning, and on submission
    the blocking error; no request. *)
Lemma create_order_empty (inp : order_form) (w : world) :
  of_submitted inp = true ->
  create_order remote base py_format [] inp w
  = (Returns tt,
     mkWorld (ui w ++ [UiWrite "### ➕ Crear orden";
                       UiWarning "No hay productos. Crea uno en la pestaña Productos.";
                       UiError "Agrega al menos un producto."])%list
             (sent w)).
Proof.
  intros Hsub. unfold create_order. rewrite Hsub.
  unfold st_warning, st_error. rewrite bind_display. cbn [truthy negb].
  unfold bind, display, ret. cbn [negb]. cbv beta iota. cbn [ui sent].
  now rewrite <- !app_assoc.
Qed.

(** The order form over a catalogue in which the selected label stands for
    the product [pid]: on submission, the POST and then the confirmation. *)
Lemma create_order_submit (product_map : list (string * pyobj)) (inp : order_form)
      (w : world) (pid : pyobj) :
  of_submitted inp = true ->
  selected_product_id product_map inp = Some pid ->
  create_order remote base py_format product_map inp w
  = bind (api_post remote base "/orders/" (order_payload inp (order_items pid inp)))
         (fun res =>
            if truthy res then
              id <- lift (py_get res "id") ;;
              nm <- lift (py_get res "customer_name") ;;
              st_success ("Orden creada: #" ++ py_format id ++ " para " ++ py_format nm)
            else ret tt)
         (order_form_opened w).
Proof.
  intros Hsub Hsel. unfold create_order. rewrite Hsub. rewrite bind_display.
  unfold selected_product_id in Hsel.
  assert (Ht : truthy (PyDict product_map) = true)
    by (destruct product_map; [discriminate Hsel | reflexivity]).
  rewrite Ht. unfold py_getitem. rewrite Hsel.
  rewrite bind_lift. rewrite bind_ret. cbn [truthy negb]. reflexivity.
Qed.

(** C5: on a submitted order form, (1) when the product list is empty the
    panel displays the blocking error and issues no POST; (2) when the
    product list holds exactly one product (a record with the id, name and
    sku the form's label reads) and the quantity is 1, the panel issues one
    POST, to /orders/, whose payload has as items the one-element list
    [{product_id: that product's id, qty: 1}]. *)
Theorem order_form_submission :
  forall (inp : order_form) (w w1 : world) (fetched : pyobj),
    of_submitted inp = true ->
    api_get remote base "/products"
            (mkWorld (ui w ++ [UiSubheader "Órdenes"])%list (sent w))
    = (Returns fetched, w1) ->
    (py_or fetched (PyList []) = PyList [] ->
     In (UiError "Agrega al menos un producto.")
        (ui (snd (tab_orders remote base py_format inp w)))
     /\ posts (snd (tab_orders remote base py_format inp w)) = posts w)
    /\ (forall p pid nm sku,
          fetched = PyList [p] ->
          py_getitem p "id" = Returns pid ->
          py_getitem p "name" = Returns nm ->
          py_getitem p "sku" = Returns sku ->
          number_input 1 1 (of_qty inp) = 1 ->
          exists payload,
            posts (snd (tab_orders remote base py_format inp w))
            = (posts w ++ [mkRequest POST (base ++ "/orders/") (Some payload) 30])%list
            /\ py_getitem payload "items"
               = Returns (PyList [PyDict [("product_id", pid); ("qty", PyInt 1)]])).
Proof.
  intros inp w w1 fetched Hsub Hget.
  assert (Hp1 : posts w1 = posts w).
  { destruct (api_get_run remote base "/products"
                (mkWorld (ui w ++ [UiSubheader "Órdenes"])%list (sent w)))
      as [v [shown H]].
    rewrite Hget in H. injection H as _ ->. unfold posts. simpl.
    rewrite filter_app. simpl. now rewrite app_nil_r. }
  unfold tab_orders. rewrite bind_display, (bind_returns _ _ _ _ _ Hget).
  split.
  - intros Hempty. rewrite Hempty. cbn [py_iter]. rewrite bind_lift.
    cbn [build_product_map]. rewrite bind_ret.
    rewrite (bind_returns _ _ _ _ _ (create_order_empty inp w1 Hsub)).
    match goal with
    | |- context [orders_listing remote base ?w3] =>
        destruct (orders_listing_no_post remote base w3) as [Hp [shown Hu]]
    end.
    split.
    + rewrite Hu. cbn [ui]. apply in_or_app. left.
      apply in_or_app. right. right. right. left. reflexivity.
    + rewrite Hp. unfold posts. cbn [sent]. exact Hp1.
  - intros p pid nm sku -> Hid Hnm Hsku Hqty.
    cbn [py_or truthy py_iter]. rewrite bind_lift.
    cbn [build_product_map]. rewrite Hid, bind_lift, Hnm, bind_lift, Hsku, bind_lift.
    rewrite bind_lift, bind_ret. cbn [assoc_set].
    set (payload := order_payload inp [PyDict [("product_id", pid); ("qty", PyInt 1)]]).
    exists payload. split; [|reflexivity].
    unfold bind at 1.
    rewrite (create_order_submit _ inp w1 pid Hsub)
      by (unfold selected_product_id; cbn [assoc_keys map fst];
          rewrite selectbox_single; cbn [assoc_get]; now rewrite String.eqb_refl).
    unfold order_items, order_form_opened. rewrite Hqty. fold payload.
    destruct (api_post_run remote base "/orders/" payload
                (mkWorld (ui w1 ++ [UiWrite "### ➕ Crear orden"])%list (sent w1)))
      as [res [shown [Hpost _]]].
    rewrite (bind_returns _ _ _ _ _ Hpost).
    match goal with
    | |- context [(if truthy res then ?c else ?d) ?w3] =>
        destruct (confirmation_quiet res "id" "customer_name"
                    (fun id nm => "Orden creada: #" ++ py_format id ++ " para "
                                  ++ py_format nm) w3) as [Hs _];
        destruct ((if truthy res then c else d) w3) as [[[]|e] w4]
    end; cbn [snd sent] in Hs.
    + destruct (orders_listing_no_post remote base w4) as [-> _].
      unfold posts. rewrite Hs, filter_app. cbn [filter is_post req_method post_request].
      fold (posts w1). now rewrite Hp1.
    + cbn [snd]. unfold posts. rewrite Hs, filter_app.
      cbn [filter is_post req_method post_request].
      fold (posts w1). now rewrite Hp1.
Qed.

(** What each form does once submitted: its POST, then the handling of the
    result. *)
Lemma create_product_submit (inp : product_form) :
  pf_submitted inp = true ->
  create_product remote base py_format inp
  = (res <- api_post remote base "/products/" (product_payload inp) ;;
     if truthy res then
       id <- lift (py_get res "id") ;;
       nm <- lift (py_get res "name") ;;
       st_success ("Producto creado: " ++ py_format id ++ " – " ++ py_format nm)
     else ret tt).
Proof. intros H. unfold create_product. now rewrite H. Qed.

Lemma create_shipment_submit (inp : shipment_form) :
  sf_submitted inp = true ->
  create_shipment remote base py_format inp
  = (res <- api_post remote base "/shipping/create" (shipment_payload inp) ;;
     if truthy res then
       id <- lift (py_get res "id") ;;
       oid <- lift (py_get res "order_id") ;;
       st_success ("Envío creado: #" ++ py_format id ++ " (order " ++ py_format oid ++ ")")
     else ret tt).
Proof. intros H. unfold create_shipment. now rewrite H. Qed.

Lemma update_status_submit (inp : status_form) :
  uf_submitted2 inp = true ->
  update_status remote base inp
  = (res <- api_post remote base (status_path inp) (PyDict []) ;;
     cond <- (if truthy res then lift (py_get res "ok") else ret res) ;;
     if truthy cond then st_success (status_message inp) else ret tt).
Proof. intros H. unfold update_status. now rewrite H. Qed.

Lemma none_or_empty_falsy (res : pyobj) : none_or_empty res -> truthy res = false.
Proof. now intros [-> | ->]. Qed.

(** What [api_post] leaves on screen holds no new confirmation. *)
Lemma api_post_successes (path : string) (payload res : pyobj) (w w1 : world) :
  api_post remote base path payload w = (Returns res, w1) ->
  successes w1 = successes w.
Proof.
  intros H. destruct (api_post_run remote base path payload w) as [v [shown [E Hns]]].
  rewrite H in E. injection E as _ ->. unfold successes. cbn [ui].
  now rewrite filter_app, Hns, app_nil_r.
Qed.

(** C6, as stated, fails: the confirmation is displayed for an answer whose
    ok field is not [true] but another value Python takes for true, here the
    string "false". *)
Lemma status_update_confirms_on_truthy_ok :
  json ok_string_response = Returns (PyDict [("ok", PyStr "false")])
  /\ update_status (always ok_string_response) sample_base submitted_status blank
     = (Returns tt,
        mkWorld [UiSuccess "Shipment 1 → at_df"]
                [mkRequest POST "https://api.example.com/shipping/1/status/at_df"
                           (Some (PyDict [])) 30]).
Proof. split; reflexivity. Qed.

(** C6, amended: after a status-update POST whose result is [res], the
    success confirmation is displayed exactly when [res] is a record whose
    ok field holds a value Python takes for true ([true], a non-zero number,
    a non-empty string, list or record); otherwise (ok is [false], [null],
    zero or empty, ok is absent, or the result is [None] or no record)
    nothing is displayed. *)
Theorem status_update_confirmation :
  forall (inp : status_form) (w w1 : world) (res : pyobj),
    uf_submitted2 inp = true ->
    api_post remote base (status_path inp) (PyDict []) w = (Returns res, w1) ->
    ((exists fields v,
         res = PyDict fields /\ assoc_get "ok" fields = Some v /\ truthy v = true) ->
     update_status remote base inp w
     = (Returns tt, mkWorld (ui w1 ++ [UiSuccess (status_message inp)])%list (sent w1)))
    /\ (~ (exists fields v,
             res = PyDict fields /\ assoc_get "ok" fields = Some v /\ truthy v = true) ->
        snd (update_status remote base inp w) = w1).
Proof.
  intros inp w w1 res Hsub Hpost.
  rewrite (update_status_submit inp Hsub), (bind_returns _ _ _ _ _ Hpost).
  split.
  - intros [fields [v [-> [Hok Hv]]]].
    assert (Ht : truthy (PyDict fields) = true)
      by (destruct fields; [discriminate Hok | reflexivity]).
    rewrite Ht. unfold py_get. rewrite Hok, bind_lift, Hv. reflexivity.
  - intros Hno.
    destruct (truthy res) eqn:Ht.
    + destruct res as [| | | | | |fields];
        try (unfold py_get; reflexivity).
      unfold py_get. destruct (assoc_get "ok" fields) as [v|] eqn:Hok.
      * rewrite bind_lift. destruct (truthy v) eqn:Hv; [|reflexivity].
        exfalso. apply Hno. now exists fields, v.
      * rewrite bind_lift. reflexivity.
    + rewrite bind_ret, Ht. reflexivity.
Qed.

(** C10: every call-site ([create_product], [create_order],
    [create_shipment], [update_status]) handles the two results of
    [api_post] that are not true, [None] and the empty record, alike: it
    displays nothing and returns, leaving the world as [api_post] left it,
    with no confirmation added. *)
Theorem empty_record_is_not_observable :
  forall (res : pyobj) (w w1 : world),
    none_or_empty res ->
    (forall inp,
        pf_submitted inp = true ->
        api_post remote base "/products/" (product_payload inp) w = (Returns res, w1) ->
        create_product remote base py_format inp w = (Returns tt, w1)
        /\ successes w1 = successes w)
    /\ (forall product_map inp pid,
          of_submitted inp = true ->
          selected_product_id product_map inp = Some pid ->
          api_post remote base "/orders/" (order_payload inp (order_items pid inp))
                   (order_form_opened w)
          = (Returns res, w1) ->
          create_order remote base py_format product_map inp w = (Returns tt, w1)
          /\ successes w1 = successes w)
    /\ (forall inp,
          sf_submitted inp = true ->
          api_post remote base "/shipping/create" (shipment_payload inp) w
          = (Returns res, w1) ->
          create_shipment remote base py_format inp w = (Returns tt, w1)
          /\ successes w1 = successes w)
    /\ (forall inp,
          uf_submitted2 inp = true ->
          api_post remote base (status_path inp) (PyDict []) w = (Returns res, w1) ->
          update_status remote base inp w = (Returns tt, w1)
          /\ successes w1 = successes w).
Proof.
  intros res w w1 Hres. pose proof (none_or_empty_falsy res Hres) as Hf.
  split; [|split; [|split]].
  - intros inp Hsub Hpost. split; [|exact (api_post_successes _ _ _ _ _ Hpost)].
    rewrite (create_product_submit inp Hsub), (bind_returns _ _ _ _ _ Hpost), Hf.
    reflexivity.
  - intros product_map inp pid Hsub Hsel Hpost. split.
    + rewrite (create_order_submit product_map inp w pid Hsub Hsel),
        (bind_returns _ _ _ _ _ Hpost), Hf.
      reflexivity.
    + rewrite (api_post_successes _ _ _ _ _ Hpost).
      unfold successes, order_form_opened.
      cbn [ui]. rewrite filter_app. cbn [filter is_success]. apply app_nil_r.
  - intros inp Hsub Hpost. split; [|exact (api_post_successes _ _ _ _ _ Hpost)].
    rewrite (create_shipment_submit inp Hsub), (bind_returns _ _ _ _ _ Hpost), Hf.
    reflexivity.
  - intros inp Hsub Hpost. split; [|exact (api_post_successes _ _ _ _ _ Hpost)].
    rewrite (update_status_submit inp Hsub), (bind_returns _ _ _ _ _ Hpost), Hf.
    rewrite bind_ret, Hf. reflexivity.
Qed.

End FormProperties.

Lemma order_form_submission_witness :
  (In (UiError "Agrega al menos un producto.")
      (ui (snd (tab_orders (always empty_list_response) sample_base simple_format
                           submitted_order blank)))
   /\ posts (snd (tab_orders (always empty_list_response) sample_base simple_format
                             submitted_order blank)) = [])
  /\ exists payload,
      posts (snd (tab_orders shop sample_base simple_format submitted_order blank))
      = [mkRequest POST "https://api.example.com/orders/" (Some payload) 30]
      /\ py_getitem payload "items"
         = Returns (PyList [PyDict [("product_id", PyInt 7); ("qty", PyInt 1)]]).
Proof.
  split.
  - exact (proj1 (order_form_submission
                    (always empty_list_response) sample_base simple_format
                    submitted_order blank
                    (mkWorld [UiSubheader "Órdenes"]
                             [mkRequest GET "https://api.example.com/products" None 20])
                    (PyList []) eq_refl eq_refl)
                 eq_refl).
  - exact (proj2 (order_form_submission
                    shop sample_base simple_format submitted_order blank
                    (mkWorld [UiSubheader "Órdenes"]
                             [mkRequest GET "https://api.example.com/products" None 20])
                    (PyList [tshirt]) eq_refl eq_refl)
                 tshirt (PyInt 7) (PyStr "Playera") (PyStr "WAL-0001")
                 eq_refl eq_refl eq_refl eq_refl eq_refl).
Defined.

Lemma status_update_confirmation_witness :
  update_status (always ok_true_response) sample_base submitted_status blank
  = (Returns tt,
     mkWorld [UiSuccess "Shipment 1 → at_df"]
             [mkRequest POST "https://api.example.com/shipping/1/status/at_df"
                        (Some (PyDict [])) 30])
  /\ snd (update_status (always ok_false_response) sample_base submitted_status blank)
     = mkWorld [] [mkRequest POST "https://api.example.com/shipping/1/status/at_df"
                             (Some (PyDict [])) 30].
Proof.
  split.
  - apply (proj1 (status_update_confirmation
                    (always ok_true_response) sample_base submitted_status blank
                    (mkWorld [] [mkRequest POST
                                   "https://api.example.com/shipping/1/status/at_df"
                                   (Some (PyDict [])) 30])
                    (PyDict [("ok", PyBool true)]) eq_refl eq_refl)).
    exists [("ok", PyBool true)], (PyBool true). repeat split.
  - apply (proj2 (status_update_confirmation
                    (always ok_false_response) sample_base submitted_status blank
                    (mkWorld [] [mkRequest POST
                                   "https://api.example.com/shipping/1/status/at_df"
                                   (Some (PyDict [])) 30])
                    (PyDict [("ok", PyBool false)]) eq_refl eq_refl)).
    intros [fields [v [Hres [Hok Hv]]]].
    injection Hres as <-. simpl in Hok. injection Hok as <-. discriminate Hv.
Defined.

Lemma empty_record_is_not_observable_witness :
  update_status (always no_content) sample_base submitted_status blank
  = (Returns tt,
     mkWorld [] [mkRequest POST "https://api.example.com/shipping/1/status/at_df"
                           (Some (PyDict [])) 30])
  /\ create_order (always no_content) sample_base simple_format
                  [("[7] Playera (SKU WAL-0001)", PyInt 7)] submitted_order blank
     = (Returns tt,
        mkWorld [UiWrite "### ➕ Crear orden"]
                [mkRequest POST "https://api.example.com/orders/"
                           (Some (order_payload submitted_order
                                    (order_items (PyInt 7) submitted_order))) 30]).
Proof.
  split.
  - exact (proj1 (proj2 (proj2 (proj2
             (empty_record_is_not_observable
                (always no_content) sample_base simple_format (PyDict []) blank
                (mkWorld [] [mkRequest POST
                               "https://api.example.com/shipping/1/status/at_df"
                               (Some (PyDict [])) 30])
                (or_intror eq_refl))))
             submitted_status eq_refl eq_refl)).
  - exact (proj1 (proj1 (proj2
             (empty_record_is_not_observable
                (always no_content) sample_base simple_format (PyDict []) blank
                (mkWorld [UiWrite "### ➕ Crear orden"]
                         [mkRequest POST "https://api.example.com/orders/"
                                    (Some (order_payload submitted_order
                                             (order_items (PyInt 7) submitted_order))) 30])
                (or_intror eq_refl)))
             [("[7] Playera (SKU WAL-0001)", PyInt 7)] submitted_order (PyInt 7)
             eq_refl eq_refl eq_refl)).
Defined.

(** * Further properties of the client wrapper *)

Ltac run_wrapper :=
  unfold api_get, api_post, try_except, bind, requests_get, requests_post,
    perform, lift, st_error, display, ret, get_request, post_request in *.

Section ClientWrapper.

Variable remote : list request -> request -> outcome response.
Variable base : string.


(** X2: when the GET is answered with a status that is neither 4xx nor 5xx
    and a body that decodes, [api_get] returns the decoded value and
    displays nothing. *)
Theorem api_get_returns_decoded_body :
  forall (path : string) (w : world) (r : response) (v : pyobj),
    remote (sent w) (get_request base path) = Returns r ->
    status_code r < 400 \/ 600 <= status_code r ->
    json r = Returns v ->
    api_get remote base path w
    = (Returns v, mkWorld (ui w) (sent w ++ [get_request base path])%list).
Proof.
  intros path w r v Hr Hs Hj. run_wrapper.
  rewrite Hr, raise_for_status_pass by exact Hs. rewrite Hj. reflexivity.
Qed.

(** X3: whatever the remote end does, [api_post] returns (it never raises),
    having issued exactly one request, a POST of base + path with a timeout
    of 30 whose JSON body is the payload, or the empty record when the
    payload is not true ([None], an empty record); what it displays are
    error messages, at most two. *)
Theorem api_post_always_returns :
  forall (path : string) (payload : pyobj) (w : world),
  exists v added,
    api_post remote base path payload w
    = (Returns v,
       mkWorld (ui w ++ added)%list
               (sent w ++ [mkRequest POST (base ++ path)
                             (Some (if truthy payload then payload else PyDict []))
                             30])%list)
    /\ forallb is_error added = true
    /\ (List.length added <= 2)%nat.
Proof.
  intros path payload w. run_wrapper. fold (py_or payload (PyDict [])).
  destruct (remote (sent w) _) as [r|e].
  - destruct (400 <=? status_code r)%Z; cbv beta iota; cbn [ui sent];
      match goal with
      | |- context [raise_for_status ?u r ?w0] =>
          destruct (raise_for_status_cases u r w0) as [H | [m H]]; rewrite H
      end; cbv beta iota; cbn [ui sent];
      try (destruct (negb (text r =? "")%string); [destruct (json r) as [v|e]|]);
      cbv beta iota; cbn [ui sent]; rewrite <- ?app_assoc;
      first [ eexists _, []; rewrite app_nil_r; split; [reflexivity|];
              split; [reflexivity | simpl; lia]
            | eexists _, _; split; [reflexivity|];
              split; [reflexivity | simpl; lia] ].
  - cbn [ui sent]. eexists _, [_]. split; [reflexivity|].
    split; [reflexivity | simpl; lia].
Qed.

(** X4: when the POST is answered with a status below 400 and a non-empty
    body that decodes, [api_post] returns the decoded value and displays
    nothing. *)
Theorem api_post_returns_decoded_body :
  forall (path : string) (payload : pyobj) (w : world) (r : response) (v : pyobj),
    remote (sent w) (post_request base path payload) = Returns r ->
    status_code r < 400 ->
    text r <> "" ->
    json r = Returns v ->
    api_post remote base path payload w
    = (Returns v, mkWorld (ui w) (sent w ++ [post_request base path payload])%list).
Proof.
  intros path payload w r v Hr Hs Ht Hj. run_wrapper. rewrite Hr.
  destruct (Z.leb_spec 400 (status_code r)); [lia|].
  rewrite raise_for_status_pass by lia.
  apply String.eqb_neq in Ht. rewrite Ht, Hj. reflexivity.
Qed.

(** X5: a status of 600 or more is reported and still taken for a success:
    [api_post] displays the message with the status code and the body, and
    then returns the empty record for an empty body, the decoded value for a
    body that decodes. *)
Theorem api_post_status_above_599 :
  forall (path : string) (payload : pyobj) (w : world) (r : response),
    remote (sent w) (post_request base path payload) = Returns r ->
    600 <= status_code r ->
    (text r = "" ->
     api_post remote base path payload w
     = (Returns (PyDict []),
        mkWorld (ui w ++ [UiError ("POST " ++ (base ++ path) ++ " → "
                                   ++ str_int (status_code r) ++ ": " ++ text r)])%list
                (sent w ++ [post_request base path payload])%list))
    /\ (forall v,
          text r <> "" -> json r = Returns v ->
          api_post remote base path payload w
          = (Returns v,
             mkWorld (ui w ++ [UiError ("POST " ++ (base ++ path) ++ " → "
                                        ++ str_int (status_code r) ++ ": " ++ text r)])%list
                     (sent w ++ [post_request base path payload])%list)).
Proof.
  intros path payload w r Hr Hs. run_wrapper. rewrite Hr.
  destruct (Z.leb_spec 400 (status_code r)); [|lia].
  cbv beta iota. cbn [ui sent]. rewrite raise_for_status_pass by lia.
  split.
  - intros Ht. rewrite Ht. reflexivity.
  - intros v Ht Hj. apply String.eqb_neq in Ht. rewrite Ht, Hj. reflexivity.
Qed.

End ClientWrapper.

(** * Further properties of the panels *)

Lemma add_keys_nil (seen : list string) : add_keys seen [] = seen.
Proof. reflexivity. Qed.

Lemma union_keys_all_empty (records : list (list (string * pyobj))) :
  (forall o, In o records -> o = []) ->
  forall seen, fold_left add_keys records seen = seen.
Proof.
  induction records as [|o records IH]; intros H seen; simpl; [reflexivity|].
  rewrite (H o (or_introl eq_refl)), add_keys_nil. apply IH.
  intros o' Ho'. apply H. now right.
Qed.

Lemma listed_statuses_sum (orders : list (list (string * pyobj))) :
  orders_with_status "pending" orders
  + orders_with_status "forwarding" orders
  + orders_with_status "at_df" orders
  + orders_with_status "in_transit_mx" orders
  + orders_with_status "delivered" orders
  = Z.of_nat (List.length (filter has_listed_status orders)).
Proof.
  unfold orders_with_status. rewrite <- !Nat2Z.inj_add. f_equal.
  induction orders as [|o orders IH]; [reflexivity|].
  cbn [filter]. unfold has_listed_status at 1.
  assert (E : forall s, has_status s o
                        = match assoc_get "status" o with
                          | Some (PyStr x) => (x =? s)%string
                          | _ => false
                          end) by reflexivity.
  rewrite !E. clear E.
  destruct (assoc_get "status" o) as [[| | | | x | |]|]; cbn [orb List.length];
    try exact IH.
  destruct (String.eqb_spec x "pending") as [->|_]; cbn; [lia|].
  destruct (String.eqb_spec x "forwarding") as [->|_]; cbn; [lia|].
  destruct (String.eqb_spec x "at_df") as [->|_]; cbn; [lia|].
  destruct (String.eqb_spec x "in_transit_mx") as [->|_]; cbn; [lia|].
  destruct (String.eqb_spec x "delivered") as [->|_]; cbn; [lia | exact IH].
Qed.

Section Panels.

Variable remote : list request -> request -> outcome response.
Variable base : string.
Variable py_format : pyobj -> string.

(** X6: when [GET /orders] gives [None] (the request failed, or the body
    was [null]), the overview returns normally: it displays the guidance
    about the missing endpoint and the code snippet, and no metric. *)
Theorem overview_unavailable_shows_guidance :
  forall (w w1 : world),
    api_get remote base "/orders"
            (mkWorld (ui w ++ [UiSubheader "Resumen"])%list (sent w))
    = (Returns PyNone, w1) ->
    tab_overview remote base w
    = (Returns tt,
       mkWorld (ui w1 ++ [UiInfo "Aún no existe el endpoint **GET /orders** en tu API. Agrega la función list_orders y vuelve a recargar.";
                          UiCode LIST_ORDERS_SNIPPET])%list
               (sent w1)).
Proof.
  intros w w1 Hget. unfold tab_overview.
  rewrite bind_display, (bind_returns _ _ _ _ _ Hget).
  unfold render_overview, st_info, bind, display. cbn [ui sent].
  now rewrite <- app_assoc.
Qed.

(** X7: when the fetched order list is empty, or holds only records
    without any field, the frame is empty: the overview returns normally
    with the hint that there are no orders yet, and no metric. *)
Theorem overview_empty_list_shows_hint :
  forall (w w1 : world) (items : list pyobj) (orders : list (list (string * pyobj))),
    api_get remote base "/orders"
            (mkWorld (ui w ++ [UiSubheader "Resumen"])%list (sent w))
    = (Returns (PyList items), w1) ->
    as_records items = Some orders ->
    (forall o, In o orders -> o = []) ->
    tab_overview remote base w
    = (Returns tt,
       mkWorld (ui w1 ++ [UiInfo "No hay órdenes aún. Crea una en la pestaña **Órdenes**."])%list
               (sent w1)).
Proof.
  intros w w1 items orders Hget Hrec Hall. unfold tab_overview.
  rewrite bind_display, (bind_returns _ _ _ _ _ Hget).
  unfold render_overview, DataFrame. rewrite Hrec, bind_lift.
  unfold union_keys. rewrite (union_keys_all_empty orders Hall).
  reflexivity.
Qed.

(** X8: when the overview shows its metrics (the fetched list is a list of
    records, some order has a status field, no status is a list or a
    record), the five metrics add up to the number of orders whose status is
    one of the five strings: an order counts in at most one metric, one
    whose status is missing or is another value counts in none, and the sum
    never exceeds the number of orders. *)
Theorem overview_metrics_sum_bounded :
  forall (w w1 : world) (items : list pyobj) (orders : list (list (string * pyobj))),
    api_get remote base "/orders"
            (mkWorld (ui w ++ [UiSubheader "Resumen"])%list (sent w))
    = (Returns (PyList items), w1) ->
    as_records items = Some orders ->
    (exists o, In o orders /\ assoc_get "status" o <> None) ->
    (forall o v, In o orders -> assoc_get "status" o = Some v -> hashable v = true) ->
    exists m1 m2 m3 m4 m5,
      tab_overview remote base w
      = (Returns tt,
         mkWorld (ui w1 ++ [UiMetric "Pending" m1;
                            UiMetric "Forwarding" m2;
                            UiMetric "At DF" m3;
                            UiMetric "En MX" m4;
                            UiMetric "Entregadas" m5;
                            UiDataframe (mkFrame (union_keys orders) orders)])%list
                 (sent w1))
      /\ m1 + m2 + m3 + m4 + m5
         = Z.of_nat (List.length (filter has_listed_status orders))
      /\ m1 + m2 + m3 + m4 + m5 <= Z.of_nat (List.length orders).
Proof.
  intros w w1 items orders Hget Hrec Hsome Hhash.
  exists (orders_with_status "pending" orders),
         (orders_with_status "forwarding" orders),
         (orders_with_status "at_df" orders),
         (orders_with_status "in_transit_mx" orders),
         (orders_with_status "delivered" orders).
  split; [|split].
  - unfold tab_overview. rewrite bind_display, (bind_returns _ _ _ _ _ Hget).
    assert (Hcol : mem_string "status" (union_keys orders) = true)
      by (apply union_keys_from; right; exact Hsome).
    unfold render_overview, DataFrame. rewrite Hrec, bind_lift.
    assert (Hne : df_empty (mkFrame (union_keys orders) orders) = false).
    { unfold df_empty. simpl. destruct (union_keys orders); [discriminate Hcol|].
      destruct orders; [|reflexivity]. now destruct Hsome as [o [[] _]]. }
    rewrite Hne. cbn [negb].
    unfold df_column. cbn [columns rows]. rewrite Hcol, bind_lift.
    unfold value_counts. rewrite (present_values_hashable orders Hhash), bind_lift.
    rewrite !status_counts.
    unfold bind, display. cbn [ui sent].
    rewrite <- !app_assoc. reflexivity.
  - apply listed_statuses_sum.
  - rewrite listed_statuses_sum. apply inj_le, filter_length_le.
Qed.

(** X9: the products panel writes the number of products fetched: 0 and no
    table when [GET /products] gave nothing (a failure, [null], an empty
    list); for a non-empty list of records, its length and then the
    table. *)
Theorem products_listing_counts :
  forall (w w1 : world) (fetched : pyobj),
    api_get remote base "/products"
            (mkWorld (ui w ++ [UiSubheader "Productos"])%list (sent w))
    = (Returns fetched, w1) ->
    (truthy fetched = false ->
     products_listing remote base w
     = (Returns tt,
        mkWorld (ui w1 ++ [UiWrite "Productos cargados: 0"])%list (sent w1)))
    /\ (forall p items records,
          fetched = PyList (p :: items) ->
          as_records (p :: items) = Some records ->
          products_listing remote base w
          = (Returns tt,
             mkWorld (ui w1 ++ [UiWrite ("Productos cargados: "
                                         ++ str_int (Z.of_nat (S (List.length items))));
                                UiDataframe (mkFrame (union_keys records) records)])%list
                     (sent w1))).
Proof.
  intros w w1 fetched Hget. unfold products_listing.
  rewrite bind_display, (bind_returns _ _ _ _ _ Hget). split.
  - intros Hf. unfold py_or. rewrite Hf. cbn [py_len List.length truthy].
    rewrite bind_lift. reflexivity.
  - intros p items records -> Hrec. unfold py_or. cbn [truthy py_len].
    rewrite bind_lift, bind_display. unfold DataFrame. rewrite Hrec, bind_lift.
    unfold display. cbn [ui sent]. now rewrite <- app_assoc.
Qed.

End Panels.

(** * Further properties of the forms *)

Lemma selectbox_in (options : list string) (picked : option nat) :
  options <> [] -> In (selectbox options picked) options.
Proof.
  intros Hne. destruct options as [|o options]; [congruence|].
  unfold selectbox. destruct picked as [i|]; [|now left].
  destruct (Nat.lt_ge_cases i (List.length (o :: options))) as [Hlt|Hge].
  - now apply nth_In.
  - rewrite nth_overflow by exact Hge. now left.
Qed.

Lemma assoc_get_of_key (k : string) (d : list (string * pyobj)) :
  In k (assoc_keys d) -> exists v, assoc_get k d = Some v /\ In v (map snd d).
Proof.
  induction d as [|[k' v'] d IH]; simpl; [intros []|].
  intros H. destruct (String.eqb_spec k' k) as [->|Hne].
  - exists v'. split; [reflexivity | now left].
  - destruct H as [H|H]; [congruence|].
    destruct (IH H) as [v [Hv Hin]]. exists v. split; [exact Hv | now right].
Qed.

Lemma assoc_keys_set (k : string) (v : pyobj) (d : list (string * pyobj)) :
  assoc_keys (assoc_set k v d)
  = if mem_string k (assoc_keys d) then assoc_keys d else (assoc_keys d ++ [k])%list.
Proof.
  induction d as [|[k' v'] d IH]; simpl; [reflexivity|].
  destruct (String.eqb_spec k' k) as [->|Hne]; simpl; [reflexivity|].
  rewrite IH. now destruct (mem_string k (assoc_keys d)).
Qed.

Lemma mem_string_In (k : string) (ks : list string) :
  mem_string k ks = true <-> In k ks.
Proof.
  unfold mem_string. rewrite existsb_exists. split.
  - intros [x [Hin Heq]]. apply String.eqb_eq in Heq. now subst.
  - intros H. exists k. split; [exact H | apply String.eqb_refl].
Qed.

Lemma assoc_set_nodup (k : string) (v : pyobj) (d : list (string * pyobj)) :
  NoDup (assoc_keys d) -> NoDup (assoc_keys (assoc_set k v d)).
Proof.
  intros H. rewrite assoc_keys_set.
  destruct (mem_string k (assoc_keys d)) eqn:E; [exact H|].
  apply NoDup_app; [exact H | repeat constructor; intros [] |].
  intros x Hx [<- | []]. apply mem_string_In in Hx. congruence.
Qed.

Lemma assoc_set_values (k : string) (v x : pyobj) (d : list (string * pyobj)) :
  In x (map snd (assoc_set k v d)) -> x = v \/ In x (map snd d).
Proof.
  induction d as [|[k' v'] d IH]; simpl.
  - intros [<- | []]. now left.
  - destruct (String.eqb_spec k' k) as [->|Hne]; simpl.
    + intros [<- | H]; [now left | right; now right].
    + intros [<- | H]; [right; now left|].
      destruct (IH H) as [-> | H']; [now left | right; now right].
Qed.

Lemma assoc_set_length (k : string) (v : pyobj) (d : list (string * pyobj)) :
  (List.length (assoc_set k v d) <= S (List.length d))%nat.
Proof.
  induction d as [|[k' v'] d IH]; simpl; [lia|].
  destruct (k' =? k)%string; simpl; lia.
Qed.

Section Catalogue.

Variable py_format : pyobj -> string.

(** The comprehension of line 117 never touches the world. *)
Lemma build_product_map_world (products : list pyobj) :
  forall acc w, snd (build_product_map py_format products acc w) = w.
Proof.
  induction products as [|p products IH]; intros acc w; simpl; [reflexivity|].
  unfold bind, lift.
  destruct (py_getitem p "id"); [|reflexivity].
  destruct (py_getitem p "name"); [|reflexivity].
  destruct (py_getitem p "sku"); [|reflexivity].
  apply IH.
Qed.

Lemma build_product_map_invariant (products : list pyobj) :
  forall acc w pm w',
    build_product_map py_format products acc w = (Returns pm, w') ->
    NoDup (assoc_keys acc) ->
    NoDup (assoc_keys pm)
    /\ (List.length pm <= List.length acc + List.length products)%nat
    /\ (forall id, In id (map snd pm) ->
                   In id (map snd acc)
                   \/ exists p, In p products /\ py_getitem p "id" = Returns id).
Proof.
  induction products as [|p products IH]; intros acc w pm w' H Hnd; simpl in H.
  - injection H as <- _. split; [exact Hnd|]. split; [lia | now left].
  - unfold bind, lift in H.
    destruct (py_getitem p "id") as [i|] eqn:Hi; [|discriminate H].
    destruct (py_getitem p "name") as [n|]; [|discriminate H].
    destruct (py_getitem p "sku") as [k|]; [|discriminate H].
    destruct (IH _ _ _ _ H (assoc_set_nodup _ i acc Hnd)) as [Hn [Hl Hv]].
    split; [exact Hn|]. split.
    + match type of Hl with
      | context [assoc_set ?l ?x ?a] => pose proof (assoc_set_length l x a)
      end.
      cbn [List.length]. lia.
    + intros id Hid. destruct (Hv id Hid) as [Hacc | [q [Hq Hqi]]].
      * apply assoc_set_values in Hacc as [-> | Hacc]; [|now left].
        right. exists p. split; [now left | exact Hi].
      * right. exists q. split; [now right | exact Hqi].
Qed.

(** X10: the product map of line 117 never lists a label twice: products
    whose labels coincide share one entry, so the map has at most as many
    entries as there are products, and every identifier in it is the id of
    one of the products. *)
Theorem product_map_labels_distinct :
  forall (products : list pyobj) (w w' : world) (pm : list (string * pyobj)),
    build_product_map py_format products [] w = (Returns pm, w') ->
    NoDup (assoc_keys pm)
    /\ (List.length pm <= List.length products)%nat
    /\ (forall id, In id (map snd pm) ->
                   exists p, In p products /\ py_getitem p "id" = Returns id).
Proof.
  intros products w w' pm H.
  destruct (build_product_map_invariant products [] w pm w' H (NoDup_nil _))
    as [Hn [Hl Hv]].
  split; [exact Hn|]. split; [exact Hl|].
  intros id Hid. destruct (Hv id Hid) as [[] | Hp]. exact Hp.
Qed.

Lemma build_product_map_unlabelled (products : list pyobj) :
  forall acc w,
    forallb labelled products = false ->
    exists e,
      build_product_map py_format products acc w = (Raises e, w)
      /\ (exn_type e = KeyError \/ exn_type e = TypeError).
Proof.
  induction products as [|p products IH]; intros acc w H; simpl in H;
    [discriminate H|].
  simpl. unfold bind, lift.
  destruct p as [| | | | | |fields];
    try (eexists; split; [reflexivity | right; reflexivity]).
  unfold py_getitem. simpl in H.
  destruct (assoc_get "id" fields);
    [|eexists; split; [reflexivity | left; reflexivity]].
  destruct (assoc_get "name" fields);
    [|eexists; split; [reflexivity | left; reflexivity]].
  destruct (assoc_get "sku" fields);
    [|eexists; split; [reflexivity | left; reflexivity]].
  simpl in H. apply IH. exact H.
Qed.

End Catalogue.

Lemma selected_lookup (product_map : list (string * pyobj)) (inp : order_form) :
  product_map <> [] ->
  exists pid, selected_product_id product_map inp = Some pid
              /\ In pid (map snd product_map).
Proof.
  intros Hne. unfold selected_product_id. apply assoc_get_of_key.
  apply selectbox_in. destruct product_map; [congruence | discriminate].
Qed.

Lemma number_input_at_least (min_value value : Z) (typed : option Z) :
  min_value <= value -> min_value <= number_input min_value value typed.
Proof. intros H. unfold number_input. destruct typed; lia. Qed.

Lemma py_get_record (fields : list (string * pyobj)) (key : string) :
  py_get (PyDict fields) key = Returns (field_or_none fields key).
Proof. unfold py_get, field_or_none. now destruct (assoc_get key fields). Qed.

Lemma py_get_non_record (res : pyobj) (key : string) :
  (forall fields, res <> PyDict fields) ->
  py_get res key = Raises (mkExn AttributeError "object has no attribute 'get'").
Proof. intros H. destruct res; try reflexivity. now destruct (H fields). Qed.

Ltac quiet_steps :=
  unfold st_info, st_error, st_success, st_warning;
  repeat first
    [ apply quiet_ret
    | apply quiet_lift
    | apply quiet_display
    | apply quiet_bind; [|intros ?]
    | match goal with
      | |- quiet (if ?b then _ else _) => destruct b
      end ].

Lemma render_overview_quiet (orders : pyobj) : quiet (render_overview orders).
Proof. unfold render_overview. destruct orders; quiet_steps. Qed.

Section Forms.

Variable remote : list request -> request -> outcome response.
Variable base : string.
Variable py_format : pyobj -> string.

(** X11: the label selected in the order form always stands for a product:
    whatever the user picked (an index beyond the list falls back on the
    first label), the look-up of line 130 finds an identifier of the map. *)
Theorem selected_product_always_found :
  forall (product_map : list (string * pyobj)) (inp : order_form),
    product_map <> [] ->
    exists pid,
      py_getitem (PyDict product_map)
                 (selectbox (assoc_keys product_map) (of_product inp))
      = Returns pid
      /\ In pid (map snd product_map).
Proof.
  intros product_map inp Hne.
  destruct (selected_lookup product_map inp Hne) as [pid [Hsel Hin]].
  exists pid. split; [|exact Hin].
  unfold py_getitem. unfold selected_product_id in Hsel. now rewrite Hsel.
Qed.

(** X12: a product that is not a record with an id, a name and a sku makes
    the orders panel raise ([KeyError] for a missing field, [TypeError] for
    a product that is no record) right after the catalogue was fetched: the
    form and the listing are not rendered and nothing else is requested. *)
Theorem orders_tab_unlabelled_product_raises :
  forall (inp : order_form) (w w1 : world) (products : list pyobj),
    api_get remote base "/products"
            (mkWorld (ui w ++ [UiSubheader "Órdenes"])%list (sent w))
    = (Returns (PyList products), w1) ->
    forallb labelled products = false ->
    exists e,
      tab_orders remote base py_format inp w = (Raises e, w1)
      /\ (exn_type e = KeyError \/ exn_type e = TypeError).
Proof.
  intros inp w w1 products Hget Hbad. unfold tab_orders.
  rewrite bind_display, (bind_returns _ _ _ _ _ Hget).
  destruct products as [|p products]; [discriminate Hbad|].
  cbn [py_or truthy py_iter]. rewrite bind_lift.
  destruct (build_product_map_unlabelled py_format (p :: products) [] w1 Hbad)
    as [e [He Hclass]].
  exists e. split; [|exact Hclass].
  unfold bind at 1. now rewrite He.
Qed.

(** X13: the order form sends a POST exactly when the button was pressed
    and the catalogue is not empty; that POST goes to /orders/ and carries
    exactly one item, whose product is one of the catalogue and whose
    quantity is at least 1.  Otherwise the form sends no request at all. *)
Theorem create_order_posts_one_item :
  forall (product_map : list (string * pyobj)) (inp : order_form) (w : world),
    (of_submitted inp = true ->
     product_map <> [] ->
     exists pid,
       In pid (map snd product_map)
       /\ 1 <= number_input 1 1 (of_qty inp)
       /\ sent (snd (create_order remote base py_format product_map inp w))
          = (sent w
             ++ [mkRequest POST (base ++ "/orders/")
                   (Some (order_payload inp
                            [PyDict [("product_id", pid);
                                     ("qty", PyInt (number_input 1 1 (of_qty inp)))]]))
                   30])%list)
    /\ (of_submitted inp = false \/ product_map = [] ->
        sent (snd (create_order remote base py_format product_map inp w)) = sent w).
Proof.
  intros product_map inp w. split.
  - intros Hsub Hne.
    destruct (selected_lookup product_map inp Hne) as [pid [Hsel Hin]].
    exists pid. split; [exact Hin|].
    split; [apply number_input_at_least; lia|].
    rewrite (create_order_submit remote base py_format product_map inp w pid Hsub Hsel).
    destruct (api_post_run remote base "/orders/"
                (order_payload inp (order_items pid inp)) (order_form_opened w))
      as [res [shown [Hpost _]]].
    rewrite (bind_returns _ _ _ _ _ Hpost).
    match goal with
    | |- context [(if truthy res then ?c else ?d) ?w3] =>
        destruct (confirmation_quiet res "id" "customer_name"
                    (fun id nm => "Orden creada: #" ++ py_format id ++ " para "
                                  ++ py_format nm) w3) as [Hs _]
    end.
    rewrite Hs. reflexivity.
  - intros [Hsub | ->].
    + assert (Hq : quiet (create_order remote base py_format product_map inp)).
      { unfold create_order. rewrite Hsub. quiet_steps. }
      apply Hq.
    + destruct (of_submitted inp) eqn:Hsub.
      * now rewrite (create_order_empty remote base py_format inp w Hsub).
      * assert (Hq : quiet (create_order remote base py_format [] inp)).
        { unfold create_order. rewrite Hsub. quiet_steps. }
        apply Hq.
Qed.

(** X14: when [api_post] gives a result that is true but no record (a
    non-empty list or string, a number, [true]), each call-site raises
    [AttributeError] on its first [res.get]: no confirmation is displayed
    and the rest of the script does not run. *)
Theorem forms_raise_on_non_record_result :
  forall (res : pyobj) (w w1 : world),
    truthy res = true ->
    (forall fields, res <> PyDict fields) ->
    (forall inp,
        pf_submitted inp = true ->
        api_post remote base "/products/" (product_payload inp) w = (Returns res, w1) ->
        create_product remote base py_format inp w
        = (Raises (mkExn AttributeError "object has no attribute 'get'"), w1))
    /\ (forall product_map inp pid,
          of_submitted inp = true ->
          selected_product_id product_map inp = Some pid ->
          api_post remote base "/orders/" (order_payload inp (order_items pid inp))
                   (order_form_opened w)
          = (Returns res, w1) ->
          create_order remote base py_format product_map inp w
          = (Raises (mkExn AttributeError "object has no attribute 'get'"), w1))
    /\ (forall inp,
          sf_submitted inp = true ->
          api_post remote base "/shipping/create" (shipment_payload inp) w
          = (Returns res, w1) ->
          create_shipment remote base py_format inp w
          = (Raises (mkExn AttributeError "object has no attribute 'get'"), w1))
    /\ (forall inp,
          uf_submitted2 inp = true ->
          api_post remote base (status_path inp) (PyDict []) w = (Returns res, w1) ->
          update_status remote base inp w
          = (Raises (mkExn AttributeError "object has no attribute 'get'"), w1)).
Proof.
  intros res w w1 Ht Hnr.
  pose proof (py_get_non_record res "id" Hnr) as Hid.
  pose proof (py_get_non_record res "ok" Hnr) as Hok.
  split; [|split; [|split]].
  - intros inp Hsub Hpost.
    rewrite (create_product_submit remote base py_format inp Hsub),
      (bind_returns _ _ _ _ _ Hpost), Ht, Hid.
    reflexivity.
  - intros product_map inp pid Hsub Hsel Hpost.
    rewrite (create_order_submit remote base py_format product_map inp w pid Hsub Hsel),
      (bind_returns _ _ _ _ _ Hpost), Ht, Hid.
    reflexivity.
  - intros inp Hsub Hpost.
    rewrite (create_shipment_submit remote base py_format inp Hsub),
      (bind_returns _ _ _ _ _ Hpost), Ht, Hid.
    reflexivity.
  - intros inp Hsub Hpost.
    rewrite (update_status_submit remote base inp Hsub),
      (bind_returns _ _ _ _ _ Hpost), Ht, Hok.
    reflexivity.
Qed.

(** X15: the three creation forms confirm on any non-empty record,
    whatever its fields: the confirmation renders the fields it names, and
    [None] for one the record lacks. *)
Theorem creation_confirms_any_record :
  forall (fields : list (string * pyobj)) (w w1 : world),
    fields <> [] ->
    (forall inp,
        pf_submitted inp = true ->
        api_post remote base "/products/" (product_payload inp) w
        = (Returns (PyDict fields), w1) ->
        create_product remote base py_format inp w
        = (Returns tt,
           mkWorld (ui w1 ++ [UiSuccess ("Producto creado: "
                                         ++ py_format (field_or_none fields "id")
                                         ++ " – "
                                         ++ py_format (field_or_none fields "name"))])%list
                   (sent w1)))
    /\ (forall product_map inp pid,
          of_submitted inp = true ->
          selected_product_id product_map inp = Some pid ->
          api_post remote base "/orders/" (order_payload inp (order_items pid inp))
                   (order_form_opened w)
          = (Returns (PyDict fields), w1) ->
          create_order remote base py_format product_map inp w
          = (Returns tt,
             mkWorld (ui w1 ++ [UiSuccess ("Orden creada: #"
                                           ++ py_format (field_or_none fields "id")
                                           ++ " para "
                                           ++ py_format (field_or_none fields "customer_name"))])%list
                     (sent w1)))
    /\ (forall inp,
          sf_submitted inp = true ->
          api_post remote base "/shipping/create" (shipment_payload inp) w
          = (Returns (PyDict fields), w1) ->
          create_shipment remote base py_format inp w
          = (Returns tt,
             mkWorld (ui w1 ++ [UiSuccess ("Envío creado: #"
                                           ++ py_format (field_or_none fields "id")
                                           ++ " (order "
                                           ++ py_format (field_or_none fields "order_id")
                                           ++ ")")])%list
                     (sent w1))).
Proof.
  intros fields w w1 Hne.
  assert (Ht : truthy (PyDict fields) = true)
    by (destruct fields; [congruence | reflexivity]).
  split; [|split].
  - intros inp Hsub Hpost.
    rewrite (create_product_submit remote base py_format inp Hsub),
      (bind_returns _ _ _ _ _ Hpost), Ht, !py_get_record, !bind_lift.
    reflexivity.
  - intros product_map inp pid Hsub Hsel Hpost.
    rewrite (create_order_submit remote base py_format product_map inp w pid Hsub Hsel),
      (bind_returns _ _ _ _ _ Hpost), Ht, !py_get_record, !bind_lift.
    reflexivity.
  - intros inp Hsub Hpost.
    rewrite (create_shipment_submit remote base py_format inp Hsub),
      (bind_returns _ _ _ _ _ Hpost), Ht, !py_get_record, !bind_lift.
    reflexivity.
Qed.

(** X16: a submitted status update sends exactly one request: a POST with
    the empty record as body to /shipping/<id>/status/<status>, where the
    identifier is at least 1 and the status is one of at_df, in_transit_mx
    and delivered. *)
Theorem update_status_request :
  forall (inp : status_form) (w : world),
    uf_submitted2 inp = true ->
    exists id status,
      1 <= id
      /\ In status SHIPMENT_STATUSES
      /\ sent (snd (update_status remote base inp w))
         = (sent w
            ++ [mkRequest POST
                  (base ++ "/shipping/" ++ str_int id ++ "/status/" ++ status)
                  (Some (PyDict [])) 30])%list.
Proof.
  intros inp w Hsub.
  exists (number_input 1 1 (uf_shipment_id inp)),
         (selectbox SHIPMENT_STATUSES (uf_new_status inp)).
  split; [apply number_input_at_least; lia|].
  split; [apply selectbox_in; discriminate|].
  rewrite (update_status_submit remote base inp Hsub).
  destruct (api_post_run remote base (status_path inp) (PyDict []) w)
    as [res [shown [Hpost _]]].
  rewrite (bind_returns _ _ _ _ _ Hpost).
  assert (Hq : quiet (cond <- (if truthy res then lift (py_get res "ok") else ret res) ;;
                      if truthy cond then st_success (status_message inp) else ret tt)).
  { quiet_steps. }
  destruct (Hq (mkWorld (ui w ++ shown)%list
                        (sent w ++ [post_request base (status_path inp) (PyDict [])])%list))
    as [Hs _].
  rewrite Hs. reflexivity.
Qed.

End Forms.

(** * Further properties of the listings *)

Ltac no_post_steps :=
  repeat first
    [ apply no_post_api_get
    | apply quiet_no_post; solve [quiet_steps]
    | apply no_post_bind; [|intros ?] ].

Lemma build_product_map_quiet (py_format : pyobj -> string) (products : list pyobj)
      (acc : list (string * pyobj)) :
  quiet (build_product_map py_format products acc).
Proof.
  intros w. pose proof (build_product_map_world py_format products acc w) as H.
  rewrite H. split; [reflexivity | exists []; now rewrite app_nil_r].
Qed.

Section Listings.

Variable remote : list request -> request -> outcome response.
Variable base : string.
Variable py_format : pyobj -> string.

Lemma create_order_unpressed_quiet (product_map : list (string * pyobj))
      (inp : order_form) :
  of_submitted inp = false ->
  quiet (create_order remote base py_format product_map inp).
Proof. intros Hsub. unfold create_order. rewrite Hsub. quiet_steps. Qed.

(** X17: the listing of the orders panel shows the table for a non-empty
    list of records and one and the same note for everything else: a failed
    request, an empty list, or an answer that is no list at all.  In each
    case it returns normally. *)
Theorem orders_listing_cases :
  forall (w w1 : world) (orders : pyobj),
    api_get remote base "/orders" (orders_listing_reached w) = (Returns orders, w1) ->
    (is_list orders && truthy orders = false ->
     orders_listing remote base w
     = (Returns tt,
        mkWorld (ui w1 ++ [UiInfo "Sin órdenes o falta el endpoint GET /orders."])%list
                (sent w1)))
    /\ (forall p items records,
          orders = PyList (p :: items) ->
          as_records (p :: items) = Some records ->
          orders_listing remote base w
          = (Returns tt,
             mkWorld (ui w1 ++ [UiDataframe (mkFrame (union_keys records) records)])%list
                     (sent w1))).
Proof.
  intros w w1 orders Hget. unfold orders_listing.
  rewrite !bind_display. cbn [ui sent]. rewrite <- app_assoc. cbn [app].
  fold (orders_listing_reached w). rewrite (bind_returns _ _ _ _ _ Hget).
  split.
  - intros Hno. rewrite Hno. reflexivity.
  - intros p items records -> Hrec. cbn [is_list truthy andb].
    unfold DataFrame. rewrite Hrec, bind_lift. reflexivity.
Qed.

(** X18: with neither form submitted, the listing of the shipping panel
    tells three cases apart: an empty list gives the note that there are no
    shipments yet, an answer that is no list (a failed request included)
    gives the guidance about the missing endpoint with its snippet, and a
    non-empty list of records gives the table. *)
Theorem shipping_listing_cases :
  forall (create : shipment_form) (update : status_form) (w w1 : world)
         (shipments : pyobj),
    sf_submitted create = false ->
    uf_submitted2 update = false ->
    api_get remote base "/shipping" (shipping_listing_reached w)
    = (Returns shipments, w1) ->
    (shipments = PyList [] ->
     tab_shipping remote base py_format create update w
     = (Returns tt, mkWorld (ui w1 ++ [UiInfo "No hay envíos aún."])%list (sent w1)))
    /\ (is_list shipments = false ->
        tab_shipping remote base py_format create update w
        = (Returns tt,
           mkWorld (ui w1 ++ [UiInfo "Aún no existe el endpoint **GET /shipping**. Puedes agregarlo así:";
                              UiCode LIST_SHIPMENTS_SNIPPET])%list
                   (sent w1)))
    /\ (forall p items records,
          shipments = PyList (p :: items) ->
          as_records (p :: items) = Some records ->
          tab_shipping remote base py_format create update w
          = (Returns tt,
             mkWorld (ui w1 ++ [UiDataframe (mkFrame (union_keys records) records)])%list
                     (sent w1))).
Proof.
  intros create update w w1 shipments Hc Hu Hget.
  assert (E : tab_shipping remote base py_format create update w
             = (if is_list shipments then
                  if truthy shipments then
                    df <- lift (DataFrame shipments) ;; display (UiDataframe df)
                  else st_info "No hay envíos aún."
                else
                  st_info "Aún no existe el endpoint **GET /shipping**. Puedes agregarlo así:" ;;
                  display (UiCode LIST_SHIPMENTS_SNIPPET)) w1).
  { unfold tab_shipping, create_shipment, update_status.
    rewrite Hc, Hu. rewrite !bind_display, bind_ret, !bind_display, bind_ret,
      !bind_display.
    cbn [ui sent]. rewrite <- !app_assoc. cbn [app].
    fold (shipping_listing_reached w). now rewrite (bind_returns _ _ _ _ _ Hget). }
  rewrite E. split; [|split].
  - intros ->. reflexivity.
  - intros Hl. rewrite Hl. unfold st_info, bind, display. cbn [ui sent].
    now rewrite <- app_assoc.
  - intros p items records -> Hrec. cbn [is_list truthy].
    unfold DataFrame. rewrite Hrec, bind_lift. reflexivity.
Qed.

(** X19: no panel sends a POST unless a button was pressed: whatever the
    remote end answers, the overview, and the products, orders and shipping
    panels with their forms not submitted, leave the POST requests issued so
    far as they were. *)
Theorem unpressed_panels_send_no_post :
  forall (w : world),
    posts (snd (tab_overview remote base w)) = posts w
    /\ (forall inp,
          pf_submitted inp = false ->
          posts (snd (tab_products remote py_format base inp w)) = posts w)
    /\ (forall inp,
          of_submitted inp = false ->
          posts (snd (tab_orders remote base py_format inp w)) = posts w)
    /\ (forall create update,
          sf_submitted create = false ->
          uf_submitted2 update = false ->
          posts (snd (tab_shipping remote base py_format create update w)) = posts w).
Proof.
  intros w. split; [|split; [|split]].
  - assert (H : no_post (tab_overview remote base)).
    { unfold tab_overview. no_post_steps. apply quiet_no_post, render_overview_quiet. }
    apply H.
  - intros inp Hsub.
    assert (H : no_post (tab_products remote py_format base inp)).
    { unfold tab_products, products_listing, create_product. rewrite Hsub.
      no_post_steps. }
    apply H.
  - intros inp Hsub.
    assert (H : no_post (tab_orders remote base py_format inp)).
    { unfold tab_orders.
      apply no_post_bind; [apply quiet_no_post, quiet_display | intros _].
      apply no_post_bind; [apply no_post_api_get | intros fetched].
      apply no_post_bind; [apply quiet_no_post, quiet_lift | intros ps].
      apply no_post_bind;
        [apply quiet_no_post, build_product_map_quiet | intros product_map].
      apply no_post_bind;
        [apply quiet_no_post, create_order_unpressed_quiet, Hsub | intros _].
      apply orders_listing_no_post. }
    apply H.
  - intros create update Hc Hu.
    assert (H : no_post (tab_shipping remote base py_format create update)).
    { unfold tab_shipping, create_shipment, update_status. rewrite Hc, Hu.
      no_post_steps. }
    apply H.
Qed.

End Listings.

(** * Properties of the page *)

Lemma pbind_show {B} (e : page_event) (k : unit -> P B) (pg : page) :
  pbind (show e) k pg = k tt (mkPage (shown pg ++ [e])%list (requests pg)).
Proof. reflexivity. Qed.

Lemma pbind_returns {A B} (c : P A) (k : A -> P B) (pg pg' : page) (a : A) :
  c pg = (Returns a, pg') -> pbind c k pg = k a pg'.
Proof. unfold pbind. now intros ->. Qed.

Lemma within_run {A} (container : ui_event -> page_event) (c : M A) (pg : page)
      (o : outcome A) (w' : world) :
  c (mkWorld [] (requests pg)) = (o, w') ->
  within container c pg
  = (o, mkPage (shown pg ++ map container (ui w'))%list (sent w')).
Proof. unfold within. now intros ->. Qed.

Lemma is_str_other (expected : string) (v : pyobj) :
  v <> PyStr expected -> is_str expected v = false.
Proof.
  intros H. destruct v; try reflexivity. simpl.
  apply String.eqb_neq. congruence.
Qed.

Section HealthIndicator.

Variable remote : list request -> request -> outcome response.
Variable base : string.

(** X20: the health indicator shows "Conectado" exactly for a record whose
    status field is the string "ok"; for a result that is not true (a failed
    request included) and for a record with another or no status it shows
    "Sin conexión"; for a result that is true but no record it raises
    [AttributeError], which ends the script before the title. *)
Theorem health_indicator_cases :
  forall (pg : page) (health : pyobj) (w1 : world),
    api_get remote base "/health" (mkWorld [] (requests pg)) = (Returns health, w1) ->
    ((exists fields,
         health = PyDict fields /\ assoc_get "status" fields = Some (PyStr "ok")) ->
     health_indicator remote base pg
     = (Returns tt,
        add_event (health_checked pg w1) (InSidebar (UiSuccess "Conectado ✅"))))
    /\ (truthy health = false
        \/ (exists fields,
               health = PyDict fields
               /\ assoc_get "status" fields <> Some (PyStr "ok")) ->
        health_indicator remote base pg
        = (Returns tt,
           add_event (health_checked pg w1) (InSidebar (UiError "Sin conexión ❌"))))
    /\ (truthy health = true ->
        (forall fields, health <> PyDict fields) ->
        health_indicator remote base pg
        = (Raises (mkExn AttributeError "object has no attribute 'get'"),
           health_checked pg w1)).
Proof.
  intros pg health w1 Hget.
  assert (E : forall k : pyobj -> P unit,
             pbind (show (InSidebar (UiMarkdown "**Estado del API:**")))
                   (fun _ => pbind (within InBody (api_get remote base "/health")) k) pg
             = k health (health_checked pg w1)).
  { intros k. rewrite pbind_show.
    rewrite (pbind_returns _ _ _ _ _
               (within_run InBody _ (mkPage _ (requests pg)) _ _ Hget)).
    unfold health_checked. cbn [shown]. now rewrite <- app_assoc. }
  unfold health_indicator. rewrite E. clear E.
  split; [|split].
  - intros [fields [-> Hok]].
    assert (Ht : truthy (PyDict fields) = true)
      by (destruct fields; [discriminate Hok | reflexivity]).
    unfold and_get_equals, pbind. rewrite Ht, py_get_record.
    unfold field_or_none. rewrite Hok. reflexivity.
  - intros [Hf | [fields [-> Hno]]].
    + unfold and_get_equals, pbind. rewrite Hf. reflexivity.
    + unfold and_get_equals, pbind. destruct (truthy (PyDict fields)); [|reflexivity].
      rewrite py_get_record. unfold field_or_none.
      destruct (assoc_get "status" fields) as [v|]; [|reflexivity].
      rewrite is_str_other by congruence. reflexivity.
  - intros Ht Hnr. unfold and_get_equals, pbind.
    rewrite Ht, (py_get_non_record health "status" Hnr). reflexivity.
Qed.

End HealthIndicator.

(** ** The page when the API cannot be reached *)

Lemma yields_ret {A} (good : A -> Prop) (a : A) : good a -> yields good (ret a).
Proof.
  intros H w. exists a, [], []. simpl. rewrite !app_nil_r. now destruct w.
Qed.

Lemma yields_display (e : ui_event) : is_success e = false -> yields any (display e).
Proof.
  intros H w. exists tt, [e], []. unfold display. rewrite app_nil_r. simpl.
  rewrite H. repeat split.
Qed.

Lemma yields_bind {A B} (mid : A -> Prop) (good : B -> Prop) (c : M A) (k : A -> M B) :
  yields mid c -> (forall a, mid a -> yields good (k a)) -> yields good (bind c k).
Proof.
  intros Hc Hk w. destruct (Hc w) as [a [added [issued [E [Ha Hn]]]]].
  destruct (Hk a Ha (mkWorld (ui w ++ added)%list (sent w ++ issued)%list))
    as [b [added' [issued' [E' [Hb Hn']]]]].
  exists b, (added ++ added')%list, (issued ++ issued')%list.
  unfold bind. rewrite E, E'. cbn [ui sent]. rewrite !app_assoc.
  split; [reflexivity|]. split; [exact Hb|].
  now rewrite filter_app, Hn, Hn'.
Qed.

Section Offline.

Variable remote : list request -> request -> outcome response.
Variable base : string.
Variable py_format : pyobj -> string.
Hypothesis remote_fails : failing remote.

Lemma api_get_offline (path : string) :
  yields (fun v => v = PyNone) (api_get remote base path).
Proof.
  intros w. destruct (remote_fails (sent w) (get_request base path))
    as [[e He] | [r [Hr Hs]]].
  - rewrite (api_get_transport_error remote base path w e He).
    eexists _, [_], [_]. repeat split.
  - destruct (api_get_error_status remote base path w r Hr Hs) as [m ->].
    eexists _, [_], [_]. repeat split.
Qed.

Lemma api_post_offline (path : string) (payload : pyobj) :
  yields (fun v => v = PyNone) (api_post remote base path payload).
Proof.
  intros w. destruct (remote_fails (sent w) (post_request base path payload))
    as [[e He] | [r [Hr Hs]]].
  - rewrite (api_post_transport_error remote base path payload w e He).
    eexists _, [_], [_]. repeat split.
  - run_wrapper. rewrite Hr.
    destruct (Z.leb_spec 400 (status_code r)); [|lia]. cbv beta iota. cbn [ui sent].
    match goal with
    | |- context [raise_for_status ?u r ?w0] =>
        destruct (raise_for_status_error u r w0 Hs) as [m Hm]; rewrite Hm
    end.
    cbv beta iota. cbn [ui sent]. rewrite <- app_assoc.
    eexists _, [_; _], [_]. repeat split.
Qed.

Ltac show_step :=
  eapply (yields_bind any); [apply yields_display; reflexivity | intros _ _].

Ltac get_step :=
  eapply (yields_bind (fun v => v = PyNone)); [apply api_get_offline | intros ? ->].

Ltac post_step :=
  eapply (yields_bind (fun v => v = PyNone)); [apply api_post_offline | intros ? ->].

Lemma tab_overview_offline : yields any (tab_overview remote base).
Proof.
  unfold tab_overview. show_step. get_step.
  unfold render_overview, st_info. show_step. apply yields_display. reflexivity.
Qed.

Lemma create_product_offline (inp : product_form) :
  yields any (create_product remote base py_format inp).
Proof.
  unfold create_product. destruct (pf_submitted inp); [|now apply yields_ret].
  post_step. now apply yields_ret.
Qed.

Lemma tab_products_offline (inp : product_form) :
  yields any (tab_products remote py_format base inp).
Proof.
  unfold tab_products.
  eapply (yields_bind any).
  - unfold products_listing. show_step. get_step.
    cbn [py_or truthy py_len List.length]. rewrite bind_lift.
    show_step. now apply yields_ret.
  - intros _ _. show_step. show_step. apply create_product_offline.
Qed.

Lemma orders_listing_offline : yields any (orders_listing remote base).
Proof.
  unfold orders_listing. show_step. show_step. get_step.
  cbn [is_list andb]. apply yields_display. reflexivity.
Qed.

Lemma tab_orders_offline (inp : order_form) :
  yields any (tab_orders remote base py_format inp).
Proof.
  unfold tab_orders. show_step. get_step.
  cbn [py_or truthy py_iter]. rewrite bind_lift.
  cbn [build_product_map]. rewrite bind_ret.
  eapply (yields_bind any); [|intros _ _; apply orders_listing_offline].
  unfold create_order. show_step. cbn [truthy].
  eapply (yields_bind (fun items => items = [])).
  - unfold st_warning. show_step. now apply yields_ret.
  - intros items ->. destruct (of_submitted inp); [|now apply yields_ret].
    cbn [truthy negb]. apply yields_display. reflexivity.
Qed.

Lemma create_shipment_offline (inp : shipment_form) :
  yields any (create_shipment remote base py_format inp).
Proof.
  unfold create_shipment. destruct (sf_submitted inp); [|now apply yields_ret].
  post_step. now apply yields_ret.
Qed.

Lemma update_status_offline (inp : status_form) :
  yields any (update_status remote base inp).
Proof.
  unfold update_status. destruct (uf_submitted2 inp); [|now apply yields_ret].
  post_step. cbn [truthy]. rewrite bind_ret. now apply yields_ret.
Qed.

Lemma tab_shipping_offline (create : shipment_form) (update : status_form) :
  yields any (tab_shipping remote base py_format create update).
Proof.
  unfold tab_shipping. show_step. show_step.
  eapply (yields_bind any); [apply create_shipment_offline | intros _ _].
  show_step. show_step.
  eapply (yields_bind any); [apply update_status_offline | intros _ _].
  show_step. show_step. get_step.
  cbn [is_list]. unfold st_info. show_step. apply yields_display. reflexivity.
Qed.

End Offline.

Lemma filter_tab_success_map (container : ui_event -> page_event) (added : list ui_event) :
  (forall e, is_tab_success (container e) = is_success e) ->
  filter is_success added = [] ->
  filter is_tab_success (map container added) = [].
Proof.
  intros Hc. induction added as [|e added IH]; simpl; [reflexivity|].
  rewrite Hc. destruct (is_success e); [discriminate | exact IH].
Qed.

Lemma in_tab_success (tab : string) (e : ui_event) :
  is_tab_success (InTab tab e) = is_success e.
Proof. now destruct e. Qed.

Lemma in_body_success (e : ui_event) : is_tab_success (InBody e) = is_success e.
Proof. now destruct e. Qed.

Lemma health_indicator_down (remote : list request -> request -> outcome response)
      (base : string) (pg : page) (health : pyobj) (w1 : world) :
  api_get remote base "/health" (mkWorld [] (requests pg)) = (Returns health, w1) ->
  truthy health = false ->
  health_indicator remote base pg
  = (Returns tt,
     add_event (health_checked pg w1) (InSidebar (UiError "Sin conexión ❌"))).
Proof.
  intros Hget Hf. unfold health_indicator. rewrite pbind_show.
  rewrite (pbind_returns _ _ _ _ _
             (within_run InBody _ (mkPage _ (requests pg)) _ _ Hget)).
  unfold and_get_equals, pbind. rewrite Hf.
  unfold show, add_event, health_checked. cbn [shown requests].
  now rewrite <- !app_assoc.
Qed.

Ltac enter_container E :=
  match goal with
  | |- pbind (within ?container ?c) ?k ?pgx = _ =>
      rewrite (pbind_returns _ k pgx _ _ (within_run container c pgx _ _ E));
      cbn [shown requests ui sent]
  end.

(** From line 14 on, with every request failing, the script runs to its
    end. *)
Lemma script_runs_when_api_is_down :
  forall (remote : list request -> request -> outcome response)
         (py_format : pyobj -> string) (configured typed : option string)
         (inp : page_inputs) (pg : page),
    failing remote ->
    exists added issued,
      script remote py_format configured typed inp pg
      = (Returns tt, mkPage (shown pg ++ added)%list (requests pg ++ issued)%list)
      /\ In (InSidebar (UiError "Sin conexión ❌")) added
      /\ In (PageCaption "Hecho con ❤️ por ESA (FastAPI + Streamlit)") added
      /\ filter is_tab_success added = [].
Proof.
  intros remote py_format configured typed inp pg Hf.
  set (base := API_BASE configured typed).
  destruct (api_get_offline remote base Hf "/health" (mkWorld [] (requests pg)))
    as [h [a0 [i0 [E0 [-> N0]]]]].
  destruct (tab_overview_offline remote base Hf
              (mkWorld [] (requests pg ++ i0)%list))
    as [[] [a1 [i1 [E1 [_ N1]]]]].
  destruct (tab_products_offline remote base py_format Hf (in_product inp)
              (mkWorld [] ((requests pg ++ i0) ++ i1)%list))
    as [[] [a2 [i2 [E2 [_ N2]]]]].
  destruct (tab_orders_offline remote base py_format Hf (in_order inp)
              (mkWorld [] (((requests pg ++ i0) ++ i1) ++ i2)%list))
    as [[] [a3 [i3 [E3 [_ N3]]]]].
  destruct (tab_shipping_offline remote base py_format Hf (in_shipment inp)
              (in_status inp)
              (mkWorld [] ((((requests pg ++ i0) ++ i1) ++ i2) ++ i3)%list))
    as [[] [a4 [i4 [E4 [_ N4]]]]].
  cbn [ui sent app] in E0, E1, E2, E3, E4.
  exists ([SidebarTitle "🔗 Conexión";
           SidebarInput "API Base URL"
                        (text_input (secrets_get configured DEFAULT_API) typed);
           InSidebar (UiMarkdown "**Estado del API:**")]
          ++ map InBody a0
          ++ [InSidebar (UiError "Sin conexión ❌");
              PageTitle "📦 ESA Dropshipping – Dashboard";
              PageCaption "Control de productos, pedidos y logística (Deliver Fever)";
              PageTabs [TAB_OVERVIEW; TAB_PRODUCTS; TAB_ORDERS; TAB_SHIPPING]]
          ++ map (InTab TAB_OVERVIEW) a1
          ++ map (InTab TAB_PRODUCTS) a2
          ++ map (InTab TAB_ORDERS) a3
          ++ map (InTab TAB_SHIPPING) a4
          ++ [PageCaption "Hecho con ❤️ por ESA (FastAPI + Streamlit)"])%list,
         (i0 ++ i1 ++ i2 ++ i3 ++ i4)%list.
  split; [|split; [|split]].
  - unfold script. fold base. rewrite !pbind_show. cbn [shown requests].
    match goal with
    | |- pbind (health_indicator _ _) ?k ?pgx = _ =>
        rewrite (pbind_returns _ k pgx _ _
                   (health_indicator_down remote base pgx PyNone _ E0 eq_refl))
    end.
    unfold add_event, health_checked. cbn [shown requests ui sent].
    rewrite !pbind_show. cbn [shown requests].
    enter_container E1. enter_container E2. enter_container E3. enter_container E4.
    unfold show. cbn [shown requests].
    rewrite <- !app_assoc. reflexivity.
  - apply in_or_app. right. apply in_or_app. right. now left.
  - do 7 (apply in_or_app; right). now left.
  - rewrite !filter_app.
    rewrite (filter_tab_success_map InBody a0 in_body_success N0).
    rewrite (filter_tab_success_map _ a1 (in_tab_success TAB_OVERVIEW) N1).
    rewrite (filter_tab_success_map _ a2 (in_tab_success TAB_PRODUCTS) N2).
    rewrite (filter_tab_success_map _ a3 (in_tab_success TAB_ORDERS) N3).
    rewrite (filter_tab_success_map _ a4 (in_tab_success TAB_SHIPPING) N4).
    reflexivity.
Qed.


(** ** What a render fetches *)

Lemma sends_quiet {A} (c : M A) : quiet c -> sends [] c.
Proof.
  intros Hq w a w' E. destruct (Hq w) as [Hs _]. rewrite E in Hs. simpl in Hs.
  now rewrite app_nil_r.
Qed.

Lemma sends_bind {A B} (first rest : list request) (c : M A) (k : A -> M B) :
  sends first c -> (forall a, sends rest (k a)) -> sends (first ++ rest) (bind c k).
Proof.
  intros Hc Hk w b w' E. unfold bind in E.
  destruct (c w) as [[a|e] w1] eqn:Ec; [|discriminate E].
  rewrite (Hk a w1 b w' E), (Hc w a w1 Ec). now rewrite app_assoc.
Qed.

Lemma sends_api_get (remote : list request -> request -> outcome response)
      (base path : string) :
  sends [mkRequest GET (base ++ path) None 20] (api_get remote base path).
Proof.
  intros w a w' E. destruct (api_get_run remote base path w) as [v [shown H]].
  rewrite E in H. now injection H as _ ->.
Qed.

Lemma page_sends_show (e : page_event) : page_sends [] (show e).
Proof.
  intros pg a pg' E. unfold show in E. injection E as _ <-. simpl.
  now rewrite app_nil_r.
Qed.

Lemma page_sends_bind {A B} (first rest : list request) (c : P A) (k : A -> P B) :
  page_sends first c -> (forall a, page_sends rest (k a)) ->
  page_sends (first ++ rest) (pbind c k).
Proof.
  intros Hc Hk pg b pg' E. unfold pbind in E.
  destruct (c pg) as [[a|e] pg1] eqn:Ec; [|discriminate E].
  rewrite (Hk a pg1 b pg' E), (Hc pg a pg1 Ec). now rewrite app_assoc.
Qed.

Lemma page_sends_within {A} (issued : list request) (container : ui_event -> page_event)
      (c : M A) :
  sends issued c -> page_sends issued (within container c).
Proof.
  intros Hc pg a pg' E. unfold within in E.
  destruct (c (mkWorld [] (requests pg))) as [o w'] eqn:Ec.
  injection E as -> <-. simpl. exact (Hc _ _ _ Ec).
Qed.

Ltac sends_quiet_step :=
  apply (sends_bind [] _); [apply sends_quiet; solve [quiet_steps] | intros ?].

(** X22: a render on which no button is pressed, if it runs to its end,
    has fetched exactly six times, in this order: /health, /orders,
    /products, /products again, /orders again, /shipping; each a GET on the
    resolved base URL with a timeout of 20. *)
Theorem unpressed_render_fetches :
  forall (remote : list request -> request -> outcome response)
         (py_format : pyobj -> string) (configured typed : option string)
         (inp : page_inputs) (pg pg' : page),
    nothing_pressed inp ->
    script remote py_format configured typed inp pg = (Returns tt, pg') ->
    requests pg'
    = (requests pg
       ++ map (fun path => mkRequest GET (API_BASE configured typed ++ path) None 20)
              FETCHED_PATHS)%list.
Proof.
  intros remote py_format configured typed inp pg pg' [Hp [Ho [Hs Hu]]] E.
  set (base := API_BASE configured typed) in *.
  assert (Hoverview : sends [mkRequest GET (base ++ "/orders") None 20]
                            (tab_overview remote base)).
  { unfold tab_overview. sends_quiet_step.
    apply (sends_bind [_] []); [apply sends_api_get | intros orders].
    apply sends_quiet, render_overview_quiet. }
  assert (Hproducts : sends [mkRequest GET (base ++ "/products") None 20]
                            (tab_products remote py_format base (in_product inp))).
  { unfold tab_products, products_listing, create_product. rewrite Hp.
    apply (sends_bind [_] []).
    - sends_quiet_step.
      apply (sends_bind [_] []); [apply sends_api_get | intros fetched].
      apply sends_quiet. quiet_steps.
    - intros _. apply sends_quiet. quiet_steps. }
  assert (Horders : sends [mkRequest GET (base ++ "/products") None 20;
                           mkRequest GET (base ++ "/orders") None 20]
                          (tab_orders remote base py_format (in_order inp))).
  { unfold tab_orders, orders_listing. sends_quiet_step.
    apply (sends_bind [_] [_]); [apply sends_api_get | intros fetched].
    sends_quiet_step.
    apply (sends_bind [] _); [apply sends_quiet, build_product_map_quiet | intros pm].
    apply (sends_bind [] _);
      [apply sends_quiet, create_order_unpressed_quiet, Ho | intros _].
    sends_quiet_step. sends_quiet_step.
    apply (sends_bind [_] []); [apply sends_api_get | intros orders].
    apply sends_quiet. quiet_steps. }
  assert (Hshipping : sends [mkRequest GET (base ++ "/shipping") None 20]
                            (tab_shipping remote base py_format (in_shipment inp)
                                          (in_status inp))).
  { unfold tab_shipping, create_shipment, update_status. rewrite Hs, Hu.
    do 8 sends_quiet_step.
    apply (sends_bind [_] []); [apply sends_api_get | intros shipments].
    apply sends_quiet. quiet_steps. }
  assert (Hhealth : page_sends [mkRequest GET (base ++ "/health") None 20]
                               (health_indicator remote base)).
  { unfold health_indicator.
    apply (page_sends_bind [] _); [apply page_sends_show | intros _].
    apply (page_sends_bind [_] []);
      [apply page_sends_within, sends_api_get | intros health].
    apply (page_sends_bind [] []).
    - intros pg0 a pg1 E0. injection E0 as _ <-. now rewrite app_nil_r.
    - intros connected. destruct connected; apply page_sends_show. }
  assert (Hscript : page_sends
                      (map (fun path => mkRequest GET (base ++ path) None 20)
                           FETCHED_PATHS)
                      (script remote py_format configured typed inp)).
  { unfold script. fold base.
    apply (page_sends_bind [] _); [apply page_sends_show | intros _].
    apply (page_sends_bind [] _); [apply page_sends_show | intros _].
    apply (page_sends_bind [_] _); [exact Hhealth | intros _].
    apply (page_sends_bind [] _); [apply page_sends_show | intros _].
    apply (page_sends_bind [] _); [apply page_sends_show | intros _].
    apply (page_sends_bind [] _); [apply page_sends_show | intros _].
    apply (page_sends_bind [_] _);
      [apply page_sends_within; exact Hoverview | intros _].
    apply (page_sends_bind [_] _);
      [apply page_sends_within; exact Hproducts | intros _].
    apply (page_sends_bind [_; _] [_]);
      [apply page_sends_within; exact Horders | intros _].
    apply (page_sends_bind [_] []);
      [apply page_sends_within; exact Hshipping | intros _].
    apply page_sends_show. }
  exact (Hscript pg tt pg' E).
Qed.

(** * Instances *)

Lemma api_get_returns_decoded_body_witness :
  api_get (always empty_list_response) sample_base "/orders" blank
  = (Returns (PyList []),
     mkWorld [] [mkRequest GET "https://api.example.com/orders" None 20]).
Proof.
  apply (api_get_returns_decoded_body (always empty_list_response) sample_base
           "/orders" blank empty_list_response (PyList []) eq_refl).
  - left. simpl. lia.
  - reflexivity.
Defined.

Lemma api_post_returns_decoded_body_witness :
  fst (api_post (always order_created_response) sample_base "/orders/" (PyDict []) blank)
  = Returns (PyDict [("id", PyInt 1); ("customer_name", PyStr "Juan Pérez")]).
Proof.
  rewrite (api_post_returns_decoded_body (always order_created_response) sample_base
             "/orders/" (PyDict []) blank order_created_response
             (PyDict [("id", PyInt 1); ("customer_name", PyStr "Juan Pérez")]) eq_refl).
  - reflexivity.
  - simpl. lia.
  - discriminate.
  - reflexivity.
Defined.

Lemma api_post_status_above_599_witness :
  api_post (always denied) sample_base "/products/" (PyDict []) blank
  = (Returns (PyDict []),
     mkWorld [UiError "POST https://api.example.com/products/ → 999: "]
             [mkRequest POST "https://api.example.com/products/" (Some (PyDict [])) 30]).
Proof.
  apply (proj1 (api_post_status_above_599 (always denied) sample_base "/products/"
                  (PyDict []) blank denied eq_refl ltac:(simpl; lia))).
  reflexivity.
Defined.

Lemma overview_unavailable_shows_guidance_witness :
  fst (tab_overview unreachable sample_base blank) = Returns tt.
Proof.
  rewrite (overview_unavailable_shows_guidance unreachable sample_base blank
             (snd (api_get unreachable sample_base "/orders"
                           (mkWorld [UiSubheader "Resumen"] [])))
             eq_refl).
  reflexivity.
Defined.

Lemma overview_empty_list_shows_hint_witness :
  tab_overview (always empty_list_response) sample_base blank
  = (Returns tt,
     mkWorld [UiSubheader "Resumen";
              UiInfo "No hay órdenes aún. Crea una en la pestaña **Órdenes**."]
             [mkRequest GET "https://api.example.com/orders" None 20]).
Proof.
  apply (overview_empty_list_shows_hint (always empty_list_response) sample_base blank
           (mkWorld [UiSubheader "Resumen"]
                    [mkRequest GET "https://api.example.com/orders" None 20])
           [] [] eq_refl eq_refl).
  intros o [].
Defined.

Lemma overview_metrics_sum_bounded_witness :
  exists m1 m2 m3 m4 m5,
    tab_overview (always four_orders_response) sample_base blank
    = (Returns tt,
       mkWorld [UiSubheader "Resumen";
                UiMetric "Pending" m1;
                UiMetric "Forwarding" m2;
                UiMetric "At DF" m3;
                UiMetric "En MX" m4;
                UiMetric "Entregadas" m5;
                UiDataframe (mkFrame ["status"; "id"] four_orders)]
               [mkRequest GET "https://api.example.com/orders" None 20])
    /\ m1 + m2 + m3 + m4 + m5 = 2
    /\ m1 + m2 + m3 + m4 + m5 <= 4.
Proof.
  apply (overview_metrics_sum_bounded
           (always four_orders_response) sample_base blank
           (mkWorld [UiSubheader "Resumen"]
                    [mkRequest GET "https://api.example.com/orders" None 20])
           (map PyDict four_orders) four_orders).
  - reflexivity.
  - reflexivity.
  - exists [("status", PyStr "pending")]. split; [left; reflexivity | discriminate].
  - intros o v Hin Hv. simpl in Hin.
    destruct Hin as [<- | [<- | [<- | [<- | []]]]]; simpl in Hv;
      first [discriminate Hv | injection Hv as <-; reflexivity].
Defined.

Lemma products_listing_counts_witness :
  products_listing unreachable sample_base blank
  = (Returns tt,
     mkWorld [UiSubheader "Productos";
              UiError "GET https://api.example.com/products → Max retries exceeded";
              UiWrite "Productos cargados: 0"]
             [mkRequest GET "https://api.example.com/products" None 20])
  /\ fst (products_listing (always one_product_response) sample_base blank) = Returns tt.
Proof.
  split.
  - exact (proj1 (products_listing_counts unreachable sample_base blank
                    (mkWorld [UiSubheader "Productos";
                              UiError "GET https://api.example.com/products → Max retries exceeded"]
                             [mkRequest GET "https://api.example.com/products" None 20])
                    PyNone eq_refl)
                 eq_refl).
  - rewrite (proj2 (products_listing_counts (always one_product_response) sample_base
                      blank
                      (mkWorld [UiSubheader "Productos"]
                               [mkRequest GET "https://api.example.com/products" None 20])
                      (PyList [tshirt]) eq_refl)
                   tshirt [] _ eq_refl eq_refl).
    reflexivity.
Defined.

Lemma product_map_labels_distinct_witness :
  NoDup (assoc_keys tshirt_map)
  /\ (List.length tshirt_map <= 2)%nat
  /\ (forall id, In id (map snd tshirt_map) ->
                 exists p, In p [tshirt; tshirt] /\ py_getitem p "id" = Returns id).
Proof.
  exact (product_map_labels_distinct simple_format [tshirt; tshirt] blank blank
           tshirt_map eq_refl).
Defined.

Lemma selected_product_always_found_witness :
  exists pid,
    py_getitem (PyDict tshirt_map) (selectbox (assoc_keys tshirt_map) (Some 5%nat))
    = Returns pid
    /\ In pid (map snd tshirt_map).
Proof.
  apply (selected_product_always_found tshirt_map stray_pick). discriminate.
Defined.

Lemma orders_tab_unlabelled_product_raises_witness :
  exists e,
    tab_orders (always nameless_product_response) sample_base simple_format
               submitted_order blank
    = (Raises e,
       mkWorld [UiSubheader "Órdenes"]
               [mkRequest GET "https://api.example.com/products" None 20])
    /\ (exn_type e = KeyError \/ exn_type e = TypeError).
Proof.
  exact (orders_tab_unlabelled_product_raises
           (always nameless_product_response) sample_base simple_format submitted_order
           blank
           (mkWorld [UiSubheader "Órdenes"]
                    [mkRequest GET "https://api.example.com/products" None 20])
           [PyDict [("id", PyInt 7)]] eq_refl eq_refl).
Defined.

Lemma create_order_posts_one_item_witness :
  exists pid,
    In pid (map snd tshirt_map)
    /\ 1 <= 1
    /\ sent (snd (create_order shop sample_base simple_format tshirt_map
                               submitted_order blank))
       = [mkRequest POST "https://api.example.com/orders/"
            (Some (order_payload submitted_order
                     [PyDict [("product_id", pid); ("qty", PyInt 1)]]))
            30].
Proof.
  apply (proj1 (create_order_posts_one_item shop sample_base simple_format tshirt_map
                  submitted_order blank)).
  - reflexivity.
  - discriminate.
Defined.

Lemma forms_raise_on_non_record_result_witness :
  update_status (always list_response) sample_base submitted_status blank
  = (Raises (mkExn AttributeError "object has no attribute 'get'"),
     mkWorld [] [mkRequest POST "https://api.example.com/shipping/1/status/at_df"
                           (Some (PyDict [])) 30]).
Proof.
  apply (proj2 (proj2 (proj2
           (forms_raise_on_non_record_result
              (always list_response) sample_base simple_format (PyList [PyInt 1]) blank
              (mkWorld [] [mkRequest POST
                             "https://api.example.com/shipping/1/status/at_df"
                             (Some (PyDict [])) 30])
              eq_refl ltac:(intros; discriminate))))
           submitted_status eq_refl eq_refl).
Defined.

Lemma creation_confirms_any_record_witness :
  create_shipment (always order_created_response) sample_base simple_format
                  submitted_shipment blank
  = (Returns tt,
     mkWorld [UiSuccess "Envío creado: #1 (order None)"]
             [mkRequest POST "https://api.example.com/shipping/create"
                        (Some (shipment_payload submitted_shipment)) 30]).
Proof.
  apply (proj2 (proj2
           (creation_confirms_any_record
              (always order_created_response) sample_base simple_format
              [("id", PyInt 1); ("customer_name", PyStr "Juan Pérez")] blank
              (mkWorld [] [mkRequest POST "https://api.example.com/shipping/create"
                                     (Some (shipment_payload submitted_shipment)) 30])
              ltac:(discriminate)))
           submitted_shipment eq_refl eq_refl).
Defined.

Lemma update_status_request_witness :
  exists id status,
    1 <= id
    /\ In status SHIPMENT_STATUSES
    /\ sent (snd (update_status unreachable sample_base submitted_status blank))
       = [mkRequest POST
            ("https://api.example.com" ++ "/shipping/" ++ str_int id ++ "/status/" ++ status)
            (Some (PyDict [])) 30].
Proof.
  exact (update_status_request unreachable sample_base submitted_status blank eq_refl).
Defined.

Lemma orders_listing_cases_witness :
  orders_listing unreachable sample_base blank
  = (Returns tt,
     mkWorld [UiMarkdown "---"; UiWrite "### 📋 Listado de órdenes";
              UiError "GET https://api.example.com/orders → Max retries exceeded";
              UiInfo "Sin órdenes o falta el endpoint GET /orders."]
             [mkRequest GET "https://api.example.com/orders" None 20]).
Proof.
  exact (proj1 (orders_listing_cases unreachable sample_base blank
                  (mkWorld [UiMarkdown "---"; UiWrite "### 📋 Listado de órdenes";
                            UiError "GET https://api.example.com/orders → Max retries exceeded"]
                           [mkRequest GET "https://api.example.com/orders" None 20])
                  PyNone eq_refl)
               eq_refl).
Defined.

Lemma shipping_listing_cases_witness :
  In (UiInfo "No hay envíos aún.")
     (ui (snd (tab_shipping (always empty_list_response) sample_base simple_format
                            untouched_shipment untouched_status blank)))
  /\ In (UiCode LIST_SHIPMENTS_SNIPPET)
        (ui (snd (tab_shipping unreachable sample_base simple_format
                               untouched_shipment untouched_status blank))).
Proof.
  split.
  - rewrite (proj1 (shipping_listing_cases
                      (always empty_list_response) sample_base simple_format
                      untouched_shipment untouched_status blank
                      (snd (api_get (always empty_list_response) sample_base "/shipping"
                                    (shipping_listing_reached blank)))
                      (PyList []) eq_refl eq_refl eq_refl)
                   eq_refl).
    simpl. tauto.
  - rewrite (proj1 (proj2 (shipping_listing_cases
                             unreachable sample_base simple_format
                             untouched_shipment untouched_status blank
                             (snd (api_get unreachable sample_base "/shipping"
                                           (shipping_listing_reached blank)))
                             PyNone eq_refl eq_refl eq_refl))
                   eq_refl).
    simpl. tauto.
Defined.

Lemma unpressed_panels_send_no_post_witness :
  posts (snd (tab_orders shop sample_base simple_format untouched_order blank)) = [].
Proof.
  exact (proj1 (proj2 (proj2
           (unpressed_panels_send_no_post shop sample_base simple_format blank)))
           untouched_order eq_refl).
Defined.

Lemma health_indicator_cases_witness :
  health_indicator (always healthy_response) sample_base empty_page
  = (Returns tt,
     mkPage [InSidebar (UiMarkdown "**Estado del API:**");
             InSidebar (UiSuccess "Conectado ✅")]
            [mkRequest GET "https://api.example.com/health" None 20])
  /\ health_indicator (always list_response) sample_base empty_page
     = (Raises (mkExn AttributeError "object has no attribute 'get'"),
        mkPage [InSidebar (UiMarkdown "**Estado del API:**")]
               [mkRequest GET "https://api.example.com/health" None 20]).
Proof.
  split.
  - apply (proj1 (health_indicator_cases
                    (always healthy_response) sample_base empty_page
                    (PyDict [("status", PyStr "ok")])
                    (mkWorld [] [mkRequest GET "https://api.example.com/health" None 20])
                    eq_refl)).
    exists [("status", PyStr "ok")]. split; reflexivity.
  - apply (proj2 (proj2 (health_indicator_cases
                           (always list_response) sample_base empty_page
                           (PyList [PyInt 1])
                           (mkWorld [] [mkRequest GET "https://api.example.com/health"
                                                  None 20])
                           eq_refl))).
    + reflexivity.
    + intros fields. discriminate.
Defined.


Lemma unpressed_render_fetches_witness :
  requests (snd (script unreachable simple_format None None untouched_inputs empty_page))
  = map (fun path => mkRequest GET ("https://esa-dropshipping.onrender.com" ++ path) None 20)
        FETCHED_PATHS.
Proof.
  apply (unpressed_render_fetches unreachable simple_format None None untouched_inputs
           empty_page).
  - repeat split.
  - vm_compute. reflexivity.
Defined.

(** * What is shown for a message *)

Lemma append_nil_r (s : string) : s ++ "" = s.
Proof.
  induction s as [|c s IH]; simpl; [reflexivity | now rewrite IH].
Qed.

Lemma solid_ws1 (c : ascii) : solid c = true -> ws1 c = false.
Proof.
  unfold solid. intros H. apply andb_true_iff in H as [H _].
  now apply negb_true_iff in H.
Qed.

Lemma solid_ascii (c : ascii) : solid c = true -> (nat_of_ascii c < 128)%nat.
Proof.
  unfold solid. intros H. apply andb_true_iff in H as [_ H].
  now apply Nat.ltb_lt in H.
Qed.

Lemma solid_not_newline (c : ascii) : solid c = true -> is_newline c = false.
Proof.
  intros H. unfold is_newline. destruct (Ascii.eqb_spec c "010") as [->|]; [|reflexivity].
  discriminate H.
Qed.

Lemma solid_not_blank (c : ascii) : solid c = true -> is_blank_char c = false.
Proof.
  intros H. unfold is_blank_char.
  destruct (Ascii.eqb_spec c " ") as [->|]; [discriminate H|].
  destruct (Ascii.eqb_spec c "009") as [->|]; [discriminate H | reflexivity].
Qed.

Ltac settle_bytes c Hc :=
  let E := fresh "E" in
  let L := fresh "L" in
  assert (E : forall k, (128 <= k)%nat -> (nat_of_ascii c =? k)%nat = false)
    by (intros; apply Nat.eqb_neq; lia);
  assert (L : (128 <=? nat_of_ascii c)%nat = false)
    by (apply Nat.leb_gt; lia);
  rewrite ?E by lia; rewrite ?L;
  repeat match goal with
         | |- context [(?a =? ?b)%nat] => destruct (a =? b)%nat
         | |- context [(?a <=? ?b)%nat] => destruct (a <=? b)%nat
         end;
  reflexivity.

Lemma ws2_ascii_first (c b : ascii) : (nat_of_ascii c < 128)%nat -> ws2 c b = false.
Proof. intros Hc. unfold ws2. settle_bytes c Hc. Qed.

Lemma ws2_ascii_second (c b : ascii) : (nat_of_ascii c < 128)%nat -> ws2 b c = false.
Proof. intros Hc. unfold ws2. settle_bytes c Hc. Qed.

Lemma ws3_ascii_first (c b2 b3 : ascii) :
  (nat_of_ascii c < 128)%nat -> ws3 c b2 b3 = false.
Proof. intros Hc. unfold ws3. settle_bytes c Hc. Qed.

Lemma ws3_ascii_second (c b1 b3 : ascii) :
  (nat_of_ascii c < 128)%nat -> ws3 b1 c b3 = false.
Proof. intros Hc. unfold ws3. settle_bytes c Hc. Qed.

Lemma ws3_ascii_third (c b1 b2 : ascii) :
  (nat_of_ascii c < 128)%nat -> ws3 b1 b2 c = false.
Proof. intros Hc. unfold ws3. settle_bytes c Hc. Qed.

Lemma lstrip_unfold (s : string) :
  lstrip s
  = match s with
    | EmptyString => EmptyString
    | String b1 r1 =>
        if ws1 b1 then lstrip r1
        else match r1 with
             | String b2 r2 =>
                 if ws2 b1 b2 then lstrip r2
                 else match r2 with
                      | String b3 r3 => if ws3 b1 b2 b3 then lstrip r3 else s
                      | EmptyString => s
                      end
             | EmptyString => s
             end
    end.
Proof. destruct s; reflexivity. Qed.

Lemma lstrip_reversed_unfold (s : string) :
  lstrip_reversed s
  = match s with
    | EmptyString => EmptyString
    | String b1 r1 =>
        if ws1 b1 then lstrip_reversed r1
        else match r1 with
             | String b2 r2 =>
                 if ws2 b2 b1 then lstrip_reversed r2
                 else match r2 with
                      | String b3 r3 =>
                          if ws3 b3 b2 b1 then lstrip_reversed r3 else s
                      | EmptyString => s
                      end
             | EmptyString => s
             end
    end.
Proof. destruct s; reflexivity. Qed.

(** Stripping on the left stops at an ASCII character that is no white
    space, wherever it stands. *)
Lemma lstrip_solid (c : ascii) (m : string) :
  solid c = true ->
  forall n l, (String.length l <= n)%nat ->
              exists l', lstrip (l ++ String c m) = l' ++ String c m.
Proof.
  intros Hc. pose proof (solid_ws1 c Hc) as Hw. pose proof (solid_ascii c Hc) as Ha.
  induction n as [|n IH]; intros l Hl.
  - destruct l; [|simpl in Hl; lia]. exists "". rewrite lstrip_unfold. simpl.
    rewrite Hw. destruct m as [|b2 [|b3 r3]]; try reflexivity;
      rewrite (ws2_ascii_first c _ Ha); try reflexivity.
    now rewrite (ws3_ascii_first c _ _ Ha).
  - destruct l as [|b1 r1].
    + apply (IH ""). simpl. lia.
    + rewrite lstrip_unfold. simpl. simpl in Hl.
      destruct (ws1 b1); [apply IH; lia|].
      destruct r1 as [|b2 r2]; simpl.
      * rewrite (ws2_ascii_second c _ Ha).
        destruct m as [|b3 r3]; [now exists (String b1 "")|].
        rewrite (ws3_ascii_second c _ _ Ha). now exists (String b1 "").
      * destruct (ws2 b1 b2); [apply IH; simpl in Hl; lia|].
        destruct r2 as [|b3 r3]; simpl.
        -- rewrite (ws3_ascii_third c _ _ Ha). now exists (String b1 (String b2 "")).
        -- destruct (ws3 b1 b2 b3); [apply IH; simpl in Hl; lia|].
           now exists (String b1 (String b2 (String b3 r3))).
Qed.

Lemma lstrip_reversed_solid (c : ascii) (m : string) :
  solid c = true ->
  forall n l, (String.length l <= n)%nat ->
              exists l', lstrip_reversed (l ++ String c m) = l' ++ String c m.
Proof.
  intros Hc. pose proof (solid_ws1 c Hc) as Hw. pose proof (solid_ascii c Hc) as Ha.
  induction n as [|n IH]; intros l Hl.
  - destruct l; [|simpl in Hl; lia]. exists "". rewrite lstrip_reversed_unfold. simpl.
    rewrite Hw. destruct m as [|b2 [|b3 r3]]; try reflexivity;
      rewrite (ws2_ascii_second c _ Ha); try reflexivity.
    now rewrite (ws3_ascii_third c _ _ Ha).
  - destruct l as [|b1 r1].
    + apply (IH ""). simpl. lia.
    + rewrite lstrip_reversed_unfold. simpl. simpl in Hl.
      destruct (ws1 b1); [apply IH; lia|].
      destruct r1 as [|b2 r2]; simpl.
      * rewrite (ws2_ascii_first c _ Ha).
        destruct m as [|b3 r3]; [now exists (String b1 "")|].
        rewrite (ws3_ascii_second c _ _ Ha). now exists (String b1 "").
      * destruct (ws2 b2 b1); [apply IH; simpl in Hl; lia|].
        destruct r2 as [|b3 r3]; simpl.
        -- rewrite (ws3_ascii_first c _ _ Ha). now exists (String b1 (String b2 "")).
        -- destruct (ws3 b3 b2 b1); [apply IH; simpl in Hl; lia|].
           now exists (String b1 (String b2 (String b3 r3))).
Qed.

Lemma lstrip_solid_head (c : ascii) (m : string) :
  solid c = true -> lstrip (String c m) = String c m.
Proof.
  intros Hc. pose proof (solid_ws1 c Hc) as Hw. pose proof (solid_ascii c Hc) as Ha.
  rewrite lstrip_unfold, Hw. destruct m as [|b2 [|b3 r3]]; try reflexivity;
    rewrite (ws2_ascii_first c _ Ha); try reflexivity.
  now rewrite (ws3_ascii_first c _ _ Ha).
Qed.

Lemma rev_string_app (a b : string) :
  rev_string (a ++ b) = rev_string b ++ rev_string a.
Proof.
  induction a as [|c a IH]; simpl; [now rewrite append_nil_r|].
  now rewrite IH, app_assoc_string.
Qed.

Lemma rev_string_involutive (s : string) : rev_string (rev_string s) = s.
Proof.
  induction s as [|c s IH]; simpl; [reflexivity|].
  now rewrite rev_string_app, IH.
Qed.

(** Stripping on the right stops at an ASCII character that is no white
    space. *)
Lemma rstrip_solid (x y : string) (c : ascii) :
  solid c = true -> exists y', rstrip (x ++ String c y) = x ++ String c y'.
Proof.
  intros Hc. unfold rstrip. rewrite rev_string_app. simpl.
  rewrite app_assoc_string. simpl.
  destruct (lstrip_reversed_solid c (rev_string x) Hc
              (String.length (rev_string y)) (rev_string y) (le_n _)) as [l' ->].
  exists (rev_string l'). rewrite rev_string_app. simpl.
  now rewrite rev_string_involutive, app_assoc_string.
Qed.

Lemma drop_leading_blanks_solid (x y : string) (c : ascii) :
  solid c = true -> exists x', drop_leading_blanks (x ++ String c y) = x' ++ String c y.
Proof.
  intros Hc. induction x as [|b x IH]; simpl.
  - rewrite (solid_not_blank c Hc). now exists "".
  - destruct (is_blank_char b); [exact IH | now exists (String b x)].
Qed.

Lemma app_solid_not_empty (x y : string) (c : ascii) :
  (x ++ String c y =? "")%string = false.
Proof. apply String.eqb_neq. destruct x; discriminate. Qed.

(** A line holding an ASCII character that is no white space is not
    blank, for either version of [dedent]. *)
Lemma blank_line_solid (v : bool) (x y : string) (c : ascii) :
  solid c = true -> blank_line v (x ++ String c y) = false.
Proof.
  intros Hc. unfold blank_line. destruct v.
  - destruct (lstrip_solid c y Hc (String.length x) x (le_n _)) as [l' ->].
    apply app_solid_not_empty.
  - destruct (drop_leading_blanks_solid x y c Hc) as [x' ->].
    apply app_solid_not_empty.
Qed.

Lemma blank_to_empty_solid (v : bool) (x y : string) (c : ascii) :
  solid c = true -> blank_to_empty v (x ++ String c y) = x ++ String c y.
Proof. intros Hc. unfold blank_to_empty. now rewrite blank_line_solid. Qed.

Lemma map_lines_solid_run (f : string -> string) (D : string) :
  all_solid D = true ->
  forall cur b, map_lines f cur (D ++ b) = map_lines f (cur ++ D) b.
Proof.
  induction D as [|d D IH]; intros H cur b; simpl in *.
  - now rewrite append_nil_r.
  - apply andb_true_iff in H as [Hd HD].
    rewrite (solid_not_newline d Hd), (IH HD), app_assoc_string. reflexivity.
Qed.

Lemma map_lines_head (f : string -> string) (b : string) :
  forall cur, exists lb rest, map_lines f cur b = f (cur ++ lb) ++ rest.
Proof.
  induction b as [|c b IH]; intros cur; simpl.
  - exists "", "". now rewrite !append_nil_r.
  - destruct (is_newline c).
    + exists "", (String c (map_lines f "" b)). now rewrite (append_nil_r cur).
    + destruct (IH (cur ++ String c "")) as [lb [rest ->]].
      exists (String c lb), rest. now rewrite app_assoc_string.
Qed.

(** Emptying the blank lines leaves a run of ASCII characters that are no
    white space where it is. *)
Lemma map_lines_keeps_token (v : bool) (d : ascii) (D b : string) :
  all_solid (String d D) = true ->
  forall a cur, exists X Y,
    map_lines (blank_to_empty v) cur (a ++ String d D ++ b) = X ++ String d D ++ Y.
Proof.
  intros H. pose proof H as H'. simpl in H'. apply andb_true_iff in H' as [Hd _].
  induction a as [|c a IH]; intros cur.
  - change ("" ++ String d D ++ b) with (String d D ++ b).
    rewrite (map_lines_solid_run _ (String d D) H).
    destruct (map_lines_head (blank_to_empty v) b (cur ++ String d D)) as [lb [rest ->]].
    rewrite (app_assoc_string cur (String d D) lb). simpl.
    rewrite (blank_to_empty_solid v cur (D ++ lb) d Hd).
    exists cur, (lb ++ rest).
    rewrite app_assoc_string. simpl. now rewrite app_assoc_string.
  - simpl. destruct (is_newline c).
    + destruct (IH "") as [X [Y E]]. simpl in E. rewrite E.
      exists (blank_to_empty v cur ++ String c X), Y.
      now rewrite app_assoc_string.
    + apply IH.
Qed.

Lemma map_lines_first_char (v : bool) (p : ascii) (r : string) :
  solid p = true ->
  exists R, map_lines (blank_to_empty v) "" (String p r) = String p R.
Proof.
  intros Hp. simpl. rewrite (solid_not_newline p Hp).
  destruct (map_lines_head (blank_to_empty v) r (String p "")) as [lb [rest ->]].
  change (String p "" ++ lb) with ("" ++ String p lb).
  rewrite (blank_to_empty_solid v "" lb p Hp). now exists (lb ++ rest).
Qed.

Lemma split_lines_head (s : string) :
  forall cur, exists lb ls, split_lines cur s = (cur ++ lb) :: ls.
Proof.
  induction s as [|c s IH]; intros cur; simpl.
  - exists "", []. now rewrite append_nil_r.
  - destruct (is_newline c).
    + exists "", (split_lines "" s). now rewrite (append_nil_r cur).
    + destruct (IH (cur ++ String c "")) as [lb [ls ->]].
      exists (String c lb), ls. now rewrite app_assoc_string.
Qed.

Lemma fold_common_prefix_empty (indents : list string) :
  fold_left common_prefix indents "" = "".
Proof. induction indents as [|i indents IH]; simpl; [reflexivity | exact IH]. Qed.

(** A text whose first character is an ASCII character that is no white
    space has no margin: [dedent] only empties its blank lines. *)
Lemma dedent_unindented (v : bool) (p : ascii) (r : string) :
  solid p = true ->
  dedent v (String p r) = map_lines (blank_to_empty v) "" (String p r).
Proof.
  intros Hp. unfold dedent.
  destruct (map_lines_first_char v p r Hp) as [R ->].
  assert (Hm : margin v (split_lines "" (String p R)) = "").
  { simpl. rewrite (solid_not_newline p Hp).
    destruct (split_lines_head R (String p "")) as [lb [ls ->]].
    unfold margin. cbn [filter].
    change (String p "" ++ lb) with ("" ++ String p lb).
    rewrite (blank_line_solid v "" lb p Hp). cbn [negb map].
    simpl leading_blanks. rewrite (solid_not_blank p Hp).
    apply fold_common_prefix_empty. }
  rewrite Hm. reflexivity.
Qed.

Lemma all_solid_app (a b : string) :
  all_solid a = true -> all_solid b = true -> all_solid (a ++ b) = true.
Proof.
  induction a as [|c a IH]; simpl; intros Ha Hb; [exact Hb|].
  apply andb_true_iff in Ha as [Hc Ha]. now rewrite Hc, IH.
Qed.

(** What Streamlit shows of a message that starts with an ASCII character
    that is no white space still holds a run of such characters that another
    one follows. *)
Lemma clean_text_keeps_token (v : bool) (p q d : ascii) (A D B : string) :
  solid p = true ->
  solid q = true ->
  all_solid (String d D) = true ->
  contains (clean_text v (String p A ++ String d D ++ String q B)) (String d D).
Proof.
  intros Hp Hq HD. unfold clean_text, strip.
  change (String p A ++ String d D ++ String q B)
    with (String p (A ++ String d D ++ String q B)).
  rewrite (dedent_unindented v p _ Hp).
  destruct (map_lines_first_char v p (A ++ String d D ++ String q B) Hp) as [R ER].
  rewrite ER, (lstrip_solid_head p R Hp), <- ER.
  assert (Htok : all_solid (String d (D ++ String q "")) = true).
  { change (String d (D ++ String q "")) with (String d D ++ String q "").
    apply all_solid_app; [exact HD | simpl; now rewrite Hq]. }
  destruct (map_lines_keeps_token v d (D ++ String q "") B Htok (String p A) "")
    as [X [Y E]].
  assert (Eq : String p (A ++ String d D ++ String q B)
               = String p A ++ String d (D ++ String q "") ++ B).
  { simpl. f_equal. f_equal. f_equal. now rewrite app_assoc_string. }
  rewrite Eq, E.
  assert (Eq2 : X ++ String d (D ++ String q "") ++ Y
                = (X ++ String d D) ++ String q Y).
  { rewrite app_assoc_string. simpl. f_equal. f_equal. now rewrite app_assoc_string. }
  rewrite Eq2.
  destruct (rstrip_solid (X ++ String d D) Y q Hq) as [Y' ->].
  exists X, (String q Y'). now rewrite app_assoc_string.
Qed.

Lemma digits_solid (d : Decimal.uint) : all_solid (NilEmpty.string_of_uint d) = true.
Proof. induction d; simpl; try reflexivity; exact IHd. Qed.

(** [str(n)] of a positive integer is a non-empty run of digits. *)
Lemma str_int_solid (z : Z) :
  0 < z -> exists d D, str_int z = String d D /\ all_solid (String d D) = true.
Proof.
  intros Hz. destruct z as [|p|p]; try lia.
  unfold str_int. simpl Z.to_int. unfold NilZero.string_of_int, NilZero.string_of_uint.
  pose proof (digits_solid (Pos.to_uint p)) as H.
  destruct (Pos.to_uint p) eqn:E; simpl in *;
    eexists _, _; (split; [reflexivity | first [exact H | reflexivity]]).
Qed.

Lemma find_in_unfold (needle haystack : string) :
  find_in needle haystack
  = if prefix needle haystack then true
    else match haystack with
         | EmptyString => false
         | String _ rest => find_in needle rest
         end.
Proof. destruct haystack; reflexivity. Qed.

Lemma find_in_complete (needle haystack : string) :
  contains haystack needle -> find_in needle haystack = true.
Proof.
  intros [before [after ->]]. induction before as [|c before IH].
  - rewrite find_in_unfold.
    assert (H : prefix needle (needle ++ after) = true)
      by (apply prefix_correct, substring_prefix).
    simpl "++". now rewrite H.
  - rewrite find_in_unfold.
    destruct (prefix needle (String c before ++ needle ++ after)); [reflexivity|].
    exact IH.
Qed.

(** * The messages of the POST wrapper and the decoder *)




Lemma api_post_error_status_none
      (remote : list request -> request -> outcome response) (base path : string)
      (payload : pyobj) (w : world) (r : response) :
  remote (sent w) (post_request base path payload) = Returns r ->
  400 <= status_code r < 600 ->
  fst (api_post remote base path payload w) = Returns PyNone.
Proof.
  intros Hr Hs. run_wrapper. rewrite Hr.
  destruct (Z.leb_spec 400 (status_code r)); [|lia]. cbv beta iota. cbn [ui sent].
  match goal with
  | |- context [raise_for_status ?u r ?w0] =>
      destruct (raise_for_status_error u r w0 Hs) as [m Hm]; rewrite Hm
  end.
  reflexivity.
Qed.

(** C9, as stated, fails: the body NaN is no JSON text, yet the decoder
    reads it as a float: both wrappers return that float and display
    nothing. *)
Lemma decoder_accepts_nan :
  text nan_response <> ""
  /\ json_value_can_start (text nan_response) = false
  /\ api_get (always nan_response) sample_base "/orders" blank
     = (Returns (PyFloat nan),
        mkWorld [] [mkRequest GET "https://api.example.com/orders" None 20])
  /\ api_post (always nan_response) sample_base "/orders/" (PyDict []) blank
     = (Returns (PyFloat nan),
        mkWorld [] [mkRequest POST "https://api.example.com/orders/" (Some (PyDict [])) 30])
  /\ PyFloat nan <> PyNone.
Proof.
  split; [discriminate|]. split; [reflexivity|]. split; [reflexivity|].
  split; [reflexivity | discriminate].
Qed.

(** C9, amended: a 2xx response whose body is not empty and which the
    decoder rejects ([r.json()] raises) makes [api_get] and [api_post]
    display an error and return [None]: the value they return when the
    transport fails and when the status is 4xx or 5xx. *)
Theorem malformed_success_body_returns_none :
  forall (remote other : list request -> request -> outcome response)
         (base path : string) (payload : pyobj) (w : world) (r : response) (e : exn),
    200 <= status_code r < 300 ->
    text r <> "" ->
    json r = Raises e ->
    (remote (sent w) (get_request base path) = Returns r ->
     api_get remote base path w
     = (Returns PyNone,
        mkWorld (ui w ++ [UiError ("GET " ++ (base ++ path) ++ " → " ++ exn_str e)])%list
                (sent w ++ [get_request base path])%list)
     /\ ((exists e', other (sent w) (get_request base path) = Raises e')
         \/ (exists r', other (sent w) (get_request base path) = Returns r'
                        /\ 400 <= status_code r' < 600) ->
         fst (api_get other base path w) = fst (api_get remote base path w)))
    /\ (remote (sent w) (post_request base path payload) = Returns r ->
        api_post remote base path payload w
        = (Returns PyNone,
           mkWorld (ui w ++ [UiError ("POST " ++ (base ++ path) ++ " → " ++ exn_str e)])%list
                   (sent w ++ [post_request base path payload])%list)
        /\ ((exists e', other (sent w) (post_request base path payload) = Raises e')
            \/ (exists r', other (sent w) (post_request base path payload) = Returns r'
                           /\ 400 <= status_code r' < 600) ->
            fst (api_post other base path payload w)
            = fst (api_post remote base path payload w))).
Proof.
  intros remote other base path payload w r e Hs Ht Hj.
  assert (Hlt : status_code r < 400) by lia.
  split.
  - intros Hr.
    rewrite (api_get_decode_error remote base path w r e Hr (or_introl Hlt) Hj).
    split; [reflexivity|].
    intros [[e' He'] | [r' [Hr' Hs']]].
    + now rewrite (api_get_transport_error other base path w e' He').
    + now destruct (api_get_error_status other base path w r' Hr' Hs') as [m ->].
  - intros Hr.
    rewrite (api_post_decode_error remote base path payload w r e Hr Hlt Ht Hj).
    split; [reflexivity|].
    intros [[e' He'] | [r' [Hr' Hs']]].
    + now rewrite (api_post_transport_error other base path payload w e' He').
    + now rewrite (api_post_error_status_none other base path payload w r' Hr' Hs').
Qed.

Lemma malformed_success_body_returns_none_witness :
  fst (api_get (always html_page) sample_base "/orders" blank) = Returns PyNone
  /\ fst (api_get (always not_found) sample_base "/orders" blank)
     = fst (api_get (always html_page) sample_base "/orders" blank)
  /\ fst (api_post unreachable sample_base "/orders/" (PyDict []) blank)
     = fst (api_post (always html_page) sample_base "/orders/" (PyDict []) blank).
Proof.
  assert (Hs : 200 <= status_code html_page < 300) by (simpl; lia).
  assert (Ht : text html_page <> "") by discriminate.
  pose proof (malformed_success_body_returns_none
                (always html_page) (always not_found) sample_base "/orders" (PyDict [])
                blank html_page
                (mkExn JSONDecodeError "Expecting value: line 1 column 1 (char 0)")
                Hs Ht eq_refl) as [Hget _].
  pose proof (malformed_success_body_returns_none
                (always html_page) unreachable sample_base "/orders/" (PyDict [])
                blank html_page
                (mkExn JSONDecodeError "Expecting value: line 1 column 1 (char 0)")
                Hs Ht eq_refl) as [_ Hpost].
  destruct (Hget eq_refl) as [Eg Hsame].
  destruct (Hpost eq_refl) as [_ Hsame'].
  split; [now rewrite Eg|]. split.
  - apply Hsame. right. exists not_found. split; [reflexivity | simpl; lia].
  - apply Hsame'. left. eexists. reflexivity.
Defined.
